(** * E-Learning API: a shallow embedding of [schemas.py] and [main.py]

    The development follows the layers of the program:
    - [Bson]: the values a document holds and the 12-byte ObjectId with its
      24-digit hexadecimal rendering;
    - [Schemas]: the Pydantic models of [schemas.py] and their field
      constraints;
    - [Http]: outcomes of a request (return value, [HTTPException],
      request validation error) and the state-and-exception monad in which
      handlers run;
    - [Database]: the document store adapter ([create_document],
      [get_documents]) and the evaluation of a filter;
    - [Main]: the handlers of [main.py];
    - the properties of the handlers. *)

From Stdlib Require Import Floats Ascii String.
From stdpp Require Import gmap strings list fin_maps sorting pretty.

Local Open Scope string_scope.
Local Open Scope list_scope.

(* ===================================================================== *)
(** * BSON values, documents and ObjectIds *)
(* ===================================================================== *)

Module Bson.

(** The values found in the documents of this application: [None], [int],
    [float] (IEEE binary64), [str], a list of [str] (the tags of a course)
    and an ObjectId, kept as the number its 12 bytes spell. *)
Inductive value : Type :=
  | VNull
  | VInt (z : Z)
  | VFloat (f : float)
  | VStr (s : string)
  | VStrs (l : list string)
  | VOid (n : N).

(** A document, and any Python [dict] keyed by strings. *)
Abbreviation doc := (gmap string value).

(** Equality of stored values as a filter compares them. Floats compare as
    IEEE numbers, so [nan] equals nothing. *)
Definition value_eqb (a b : value) : bool :=
  match a, b with
  | VNull, VNull => true
  | VInt x, VInt y => bool_decide (x = y)
  | VFloat x, VFloat y => PrimFloat.eqb x y
  | VStr x, VStr y => bool_decide (x = y)
  | VStrs x, VStrs y => bool_decide (x = y)
  | VOid x, VOid y => bool_decide (x = y)
  | _, _ => false
  end.

(** ** Hexadecimal digits *)

Definition hex_digit (d : N) : ascii :=
  match d with
  | 0 => "0" | 1 => "1" | 2 => "2" | 3 => "3" | 4 => "4" | 5 => "5"
  | 6 => "6" | 7 => "7" | 8 => "8" | 9 => "9" | 10 => "a" | 11 => "b"
  | 12 => "c" | 13 => "d" | 14 => "e" | _ => "f"
  end%N%char.

(** The value of a hexadecimal digit, in either case; [None] for any other
    character. *)
Definition hex_value (c : ascii) : option N :=
  let n := N_of_ascii c in
  if (48 <=? n)%N && (n <=? 57)%N then Some (n - 48)%N
  else if (97 <=? n)%N && (n <=? 102)%N then Some (n - 87)%N
  else if (65 <=? n)%N && (n <=? 70)%N then Some (n - 55)%N
  else None.

(** [hex_acc w n acc] puts the [w] low hexadecimal digits of [n], most
    significant first, in front of [acc]. *)
Fixpoint hex_acc (w : nat) (n : N) (acc : string) : string :=
  match w with
  | O => acc
  | S w' => hex_acc w' (n / 16)%N (String (hex_digit (n mod 16)%N) acc)
  end.

(** [unhex_acc s acc] reads [s] as hexadecimal digits continuing the number
    [acc]. *)
Fixpoint unhex_acc (s : string) (acc : N) : option N :=
  match s with
  | EmptyString => Some acc
  | String c s' =>
      match hex_value c with
      | Some d => unhex_acc s' (16 * acc + d)%N
      | None => None
      end
  end.

(** ** ObjectId *)

(** [str(oid)]: 24 lower-case hexadecimal digits. *)
Definition oid_str (n : N) : string := hex_acc 24 n "".

(** [ObjectId.is_valid(s)] for a [str]: exactly 24 characters, all of them
    hexadecimal digits. *)
Definition oid_is_valid (s : string) : bool :=
  bool_decide (String.length s = 24%nat) && bool_decide (is_Some (unhex_acc s 0)).

(** [ObjectId(s)] for a [str]: [None] stands for [InvalidId]. *)
Definition oid_parse (s : string) : option N :=
  if oid_is_valid s then unhex_acc s 0 else None.

End Bson.
Export Bson.

(* ===================================================================== *)
(** * schemas.py *)
(* ===================================================================== *)

Module Schemas.

Local Open Scope float_scope.

(** ** The models *)

Record Course : Type := {
  title : string;
  subtitle : option string;
  description : string;
  instructor_name : string;
  instructor_email : string;
  price : float;
  thumbnail_url : option string;
  tags : list string;
  language : string;
  level : string
}.

Record Lesson : Type := {
  l_course_id : string;
  l_title : string;
  l_content : string;
  l_video_url : option string;
  l_order : Z
}.

Record Enrollment : Type := {
  e_course_id : string;
  e_user_email : string;
  e_user_name : string;
  e_progress : float
}.

Record Review : Type := {
  r_course_id : string;
  r_user_email : string;
  r_user_name : string;
  r_rating : Z;
  r_comment : option string
}.

(** ** The data a model is built from

    The keyword arguments of a constructor call, or a request body once its
    JSON is decoded: every field is absent ([None]) or carries a value of
    the declared type. For the [Optional] fields an absent field and a
    [null] are the same. *)

Record CourseData : Type := {
  d_title : option string;
  d_subtitle : option string;
  d_description : option string;
  d_instructor_name : option string;
  d_instructor_email : option string;
  d_price : option float;
  d_thumbnail_url : option string;
  d_tags : option (list string);
  d_language : option string;
  d_level : option string
}.

Record LessonData : Type := {
  dl_course_id : option string;
  dl_title : option string;
  dl_content : option string;
  dl_video_url : option string;
  dl_order : option Z
}.

Record EnrollmentData : Type := {
  de_course_id : option string;
  de_user_email : option string;
  de_user_name : option string;
  de_progress : option float
}.

Record ReviewData : Type := {
  dr_course_id : option string;
  dr_user_email : option string;
  dr_user_name : option string;
  dr_rating : option Z;
  dr_comment : option string
}.

(** ** Field constraints *)

(** [Field(...)]: a required field that is absent is an error. *)
Definition required {A} (name : string) (x : option A) : list string :=
  match x with
  | Some _ => []
  | None => [name +:+ ": field required"]
  end.

(** A constraint ([ge], [le]) on a field that is present or defaulted. *)
Definition constraint (name msg : string) (ok : bool) : list string :=
  if ok then [] else [name +:+ ": " +:+ msg].

(** [price: float = Field(0.0, ge=0)] *)
Definition price_ok (p : float) : bool := PrimFloat.leb 0 p.

(** [order: int = Field(0, ge=0)] *)
Definition order_ok (o : Z) : bool := (0 <=? o)%Z.

(** [progress: float = Field(0, ge=0, le=100)] *)
Definition progress_ok (p : float) : bool :=
  PrimFloat.leb 0 p && PrimFloat.leb p 100.

(** [rating: int = Field(..., ge=1, le=5)] *)
Definition rating_ok (r : Z) : bool := (1 <=? r)%Z && (r <=? 5)%Z.

(** ** Validation

    Each validator lists the offending fields, or builds the model with the
    defaults of [schemas.py] in place of the absent fields. *)

Definition Course_errors (d : CourseData) : list string :=
  required "title" (d_title d) ++
  required "description" (d_description d) ++
  required "instructor_name" (d_instructor_name d) ++
  required "instructor_email" (d_instructor_email d) ++
  constraint "price" "must be >= 0" (price_ok (default 0 (d_price d))).

Definition Course_validate (d : CourseData) : list string + Course :=
  match Course_errors d, d_title d, d_description d,
        d_instructor_name d, d_instructor_email d with
  | [], Some t, Some ds, Some n, Some e =>
      inr {| title := t;
             subtitle := d_subtitle d;
             description := ds;
             instructor_name := n;
             instructor_email := e;
             price := default 0 (d_price d);
             thumbnail_url := d_thumbnail_url d;
             tags := default [] (d_tags d);
             language := default "English" (d_language d);
             level := default "Beginner" (d_level d) |}
  | errs, _, _, _, _ => inl errs
  end.

Definition Lesson_errors (d : LessonData) : list string :=
  required "course_id" (dl_course_id d) ++
  required "title" (dl_title d) ++
  required "content" (dl_content d) ++
  constraint "order" "must be >= 0" (order_ok (default 0%Z (dl_order d))).

Definition Lesson_validate (d : LessonData) : list string + Lesson :=
  match Lesson_errors d, dl_course_id d, dl_title d, dl_content d with
  | [], Some c, Some t, Some ct =>
      inr {| l_course_id := c;
             l_title := t;
             l_content := ct;
             l_video_url := dl_video_url d;
             l_order := default 0%Z (dl_order d) |}
  | errs, _, _, _ => inl errs
  end.

Definition Enrollment_errors (d : EnrollmentData) : list string :=
  required "course_id" (de_course_id d) ++
  required "user_email" (de_user_email d) ++
  required "user_name" (de_user_name d) ++
  constraint "progress" "must be between 0 and 100"
    (progress_ok (default 0 (de_progress d))).

Definition Enrollment_validate (d : EnrollmentData) : list string + Enrollment :=
  match Enrollment_errors d, de_course_id d, de_user_email d, de_user_name d with
  | [], Some c, Some e, Some n =>
      inr {| e_course_id := c;
             e_user_email := e;
             e_user_name := n;
             e_progress := default 0 (de_progress d) |}
  | errs, _, _, _ => inl errs
  end.

Definition Review_errors (d : ReviewData) : list string :=
  required "course_id" (dr_course_id d) ++
  required "user_email" (dr_user_email d) ++
  required "user_name" (dr_user_name d) ++
  match dr_rating d with
  | Some r => constraint "rating" "must be between 1 and 5" (rating_ok r)
  | None => ["rating: field required"]
  end.

Definition Review_validate (d : ReviewData) : list string + Review :=
  match Review_errors d, dr_course_id d, dr_user_email d, dr_user_name d,
        dr_rating d with
  | [], Some c, Some e, Some n, Some r =>
      inr {| r_course_id := c;
             r_user_email := e;
             r_user_name := n;
             r_rating := r;
             r_comment := dr_comment d |}
  | errs, _, _, _, _ => inl errs
  end.

(** ** [model_dump]: a model as a mapping from field names to values *)

Definition opt_str (o : option string) : value :=
  match o with
  | Some s => VStr s
  | None => VNull
  end.

Class BaseModel (A : Type) := model_dump : A -> doc.

#[global] Instance Course_model : BaseModel Course := fun c =>
  <["title" := VStr (title c)]>
  (<["subtitle" := opt_str (subtitle c)]>
  (<["description" := VStr (description c)]>
  (<["instructor_name" := VStr (instructor_name c)]>
  (<["instructor_email" := VStr (instructor_email c)]>
  (<["price" := VFloat (price c)]>
  (<["thumbnail_url" := opt_str (thumbnail_url c)]>
  (<["tags" := VStrs (tags c)]>
  (<["language" := VStr (language c)]>
  (<["level" := VStr (level c)]> ∅))))))))).

#[global] Instance Lesson_model : BaseModel Lesson := fun l =>
  <["course_id" := VStr (l_course_id l)]>
  (<["title" := VStr (l_title l)]>
  (<["content" := VStr (l_content l)]>
  (<["video_url" := opt_str (l_video_url l)]>
  (<["order" := VInt (l_order l)]> ∅)))).

#[global] Instance Enrollment_model : BaseModel Enrollment := fun e =>
  <["course_id" := VStr (e_course_id e)]>
  (<["user_email" := VStr (e_user_email e)]>
  (<["user_name" := VStr (e_user_name e)]>
  (<["progress" := VFloat (e_progress e)]> ∅))).

#[global] Instance Review_model : BaseModel Review := fun r =>
  <["course_id" := VStr (r_course_id r)]>
  (<["user_email" := VStr (r_user_email r)]>
  (<["user_name" := VStr (r_user_name r)]>
  (<["rating" := VInt (r_rating r)]>
  (<["comment" := opt_str (r_comment r)]> ∅)))).

End Schemas.
Export Schemas.

(* ===================================================================== *)
(** * Exceptions, outcomes and the monad of handlers *)
(* ===================================================================== *)

Module Http.

(** The exceptions of the program: a plain Python [Exception] with its
    message, FastAPI's [HTTPException], and the [RequestValidationError]
    FastAPI raises when a request body does not validate. *)
Inductive exn : Type :=
  | Exception (msg : string)
  | HTTPException (status_code : nat) (detail : string)
  | RequestValidationError (errors : list string).

(** [str(e)] *)
Definition str_exn (e : exn) : string :=
  match e with
  | Exception msg => msg
  | HTTPException c d => pretty c +:+ ": " +:+ d
  | RequestValidationError errs => String.concat "; " errs
  end.

Inductive result (A : Type) : Type :=
  | Ok (a : A)
  | Raise (e : exn).
Arguments Ok {A} a.
Arguments Raise {A} e.

(** The status of the response FastAPI sends for an outcome: 200 for a
    returned value, the code of an [HTTPException], 422 for a request that
    does not validate (no exception handler is installed in [main.py]), 500
    for any other exception. *)
Definition status {A} (r : result A) : nat :=
  match r with
  | Ok _ => 200
  | Raise (HTTPException c _) => c
  | Raise (RequestValidationError _) => 422
  | Raise (Exception _) => 500
  end.

(** Computations over a mutable state [S] that return or raise. *)
Definition M (S A : Type) : Type := S -> result A * S.

#[global] Instance M_ret {S} : MRet (M S) := fun A a s => (Ok a, s).

#[global] Instance M_bind {S} : MBind (M S) := fun A B f m s =>
  match m s with
  | (Ok a, s') => f a s'
  | (Raise e, s') => (Raise e, s')
  end.

Definition raise {S A} (e : exn) : M S A := fun s => (Raise e, s).

Definition get_state {S} : M S S := fun s => (Ok s, s).

Definition modify {S} (f : S -> S) : M S unit := fun s => (Ok tt, f s).

(** [try: body / except Exception as e: handler(e)] *)
Definition try_except {S A} (body : M S A) (handler : exn -> M S A) : M S A :=
  fun s =>
    match body s with
    | (Ok a, s') => (Ok a, s')
    | (Raise e, s') => handler e s'
    end.

(** A [for] loop that updates the local variable [acc]. *)
Fixpoint for_each {S A B} (xs : list A) (acc : B) (body : B -> A -> M S B)
  : M S B :=
  match xs with
  | [] => mret acc
  | x :: xs' => acc' ← body acc x; for_each xs' acc' body
  end.

(** Python's truth value of a string and of a list. *)
Definition truthy_str (s : string) : bool := negb (bool_decide (s = "")).
Definition truthy_opt_str (o : option string) : bool :=
  match o with
  | Some s => truthy_str s
  | None => false
  end.
Definition truthy_list {A} (l : list A) : bool :=
  match l with
  | [] => false
  | _ :: _ => true
  end.

(** [s[:n]] *)
Definition str_take (n : nat) (s : string) : string := String.substring 0 n s.

End Http.
Export Http.

(* ===================================================================== *)
(** * The document store *)
(* ===================================================================== *)

Module Database.

(** ** Regular expressions

    The fragment of the store's regular expressions that the properties
    below need: a pattern made of literal characters and of [.], which
    stands for any character but a line feed. A pattern with any other
    metacharacter is not interpreted ([compile] answers [None]). Strings
    are sequences of 8-bit characters, and a case-insensitive match folds
    the ASCII letters. *)

Inductive atom : Type :=
  | Lit (c : ascii)
  | AnyChar.

Definition metachars : list ascii :=
  ["\"; "^"; "$"; "."; "|"; "?"; "*"; "+"; "("; ")"; "["; "]"; "{"; "}"]%char.

Definition is_meta (c : ascii) : bool := bool_decide (c ∈ metachars).

Fixpoint compile (pattern : string) : option (list atom) :=
  match pattern with
  | EmptyString => Some []
  | String c rest =>
      if bool_decide (c = "."%char) then (AnyChar ::.) <$> compile rest
      else if is_meta c then None
      else (Lit c ::.) <$> compile rest
  end.

(** ASCII lower case. *)
Definition lower (c : ascii) : ascii :=
  let n := N_of_ascii c in
  if (65 <=? n)%N && (n <=? 90)%N then ascii_of_N (n + 32) else c.

Definition char_eqb (ci : bool) (a b : ascii) : bool :=
  if ci then bool_decide (lower a = lower b) else bool_decide (a = b).

Definition atom_matches (ci : bool) (a : atom) (x : ascii) : bool :=
  match a with
  | Lit c => char_eqb ci c x
  | AnyChar => negb (bool_decide (x = "010"%char))
  end.

(** The pattern matches a prefix of [s]. *)
Fixpoint match_here (ci : bool) (p : list atom) (s : string) : bool :=
  match p, s with
  | [], _ => true
  | a :: p', String x s' => atom_matches ci a x && match_here ci p' s'
  | _ :: _, EmptyString => false
  end.

(** The pattern matches somewhere in [s]. *)
Fixpoint match_anywhere (ci : bool) (p : list atom) (s : string) : bool :=
  match_here ci p s ||
  match s with
  | String _ s' => match_anywhere ci p s'
  | EmptyString => false
  end.

(** Option [i] asks for a case-insensitive match. *)
Definition case_insensitive (options : string) : bool :=
  bool_decide ("i"%char ∈ list_ascii_of_string options).

Definition regex_search (pattern options subject : string) : bool :=
  match compile pattern with
  | Some p => match_anywhere (case_insensitive options) p subject
  | None => false
  end.

(** ** Filters

    A filter is the dictionary handed to [get_documents]: under a field
    name a condition on that field, under [$or] a list of one-field
    filters. *)

Inductive cond : Type :=
  | CEq (v : value)                       (* {field: v} *)
  | CIn (vs : list value)                 (* {field: {"$in": vs}} *)
  | CRegex (pattern options : string).    (* {field: {"$regex": .., "$options": ..}} *)

Inductive query : Type :=
  | Field (c : cond)
  | Or (alternatives : list (string * cond)).

Abbreviation filter_dict := (gmap string query).

Definition cond_valid (c : cond) : bool :=
  match c with
  | CRegex p _ => bool_decide (is_Some (compile p))
  | _ => true
  end.

Definition query_valid (q : query) : bool :=
  match q with
  | Field c => cond_valid c
  | Or alts => forallb (fun kc => cond_valid kc.2) alts
  end.

Definition filter_valid (f : filter_dict) : bool :=
  forallb (fun kq => query_valid kq.2) (map_to_list f).

(** A condition on the value of a field, [None] when the document has no
    such field. An exact match compares the value; [$in] on a list-valued
    field holds when one of the listed values is anywhere in the list; a
    regular expression is searched in a string, or in the strings of a
    list. *)
Definition cond_holds (c : cond) (v : option value) : bool :=
  match c, v with
  | CEq x, Some y => value_eqb y x
  | CIn xs, Some (VStrs l) =>
      existsb (fun s => existsb (value_eqb (VStr s)) xs) l
  | CIn xs, Some y => existsb (value_eqb y) xs
  | CRegex p o, Some (VStr s) => regex_search p o s
  | CRegex p o, Some (VStrs l) => existsb (regex_search p o) l
  | _, _ => false
  end.

Definition query_holds (d : doc) (field : string) (q : query) : bool :=
  match q with
  | Field c => cond_holds c (d !! field)
  | Or alts => existsb (fun kc => cond_holds kc.2 (d !! kc.1)) alts
  end.

(** The entries of a filter are combined by conjunction. *)
Definition matches (f : filter_dict) (d : doc) : bool :=
  forallb (fun kq => query_holds d kq.1 kq.2) (map_to_list f).

(** ** The store *)

Inductive call : Type :=
  | Insert (collection_name : string)
  | Find (collection_name : string).

(** The state behind the adapter: whether the database answers, the next
    ObjectId it hands out, the documents of every collection in insertion
    order, and the calls made to the adapter so far (oldest first). *)
Record store : Type := {
  available : bool;
  next_oid : N;
  collections : gmap string (list doc);
  calls : list call
}.

Definition collection (s : store) (name : string) : list doc :=
  collections s !!! name.

Definition record_call (c : call) (s : store) : store :=
  {| available := available s;
     next_oid := next_oid s;
     collections := collections s;
     calls := (calls s ++ [c])%list |}.

(** The ObjectId after [n], within 12 bytes. *)
Definition oid_succ (n : N) : N := ((n + 1) mod 2 ^ 96)%N.

Definition insert_one (name : string) (d : doc) (s : store) : store :=
  {| available := available s;
     next_oid := oid_succ (next_oid s);
     collections := <[name := (collection s name ++ [d])%list]> (collections s);
     calls := calls s |}.

(** Modelled from the spec: [database.py] is not among the sources. §4.2:
    [create(collection, record) -> Identifier] inserts a new document and
    returns its generated identifier as a string; it fails with a storage
    error when the database does not answer. The document is the mapping of
    the record's fields plus the identifier, under [_id]. *)
Definition create_document `{BaseModel A} (collection_name : string) (data : A)
  : M store string :=
  _ ← modify (record_call (Insert collection_name));
  s ← get_state;
  if available s then
    let oid := next_oid s in
    _ ← modify (insert_one collection_name (<["_id" := VOid oid]> (model_dump data)));
    mret (oid_str oid)
  else raise (Exception "Database not available").

(** Modelled from the spec: [database.py] is not among the sources. §4.2:
    [query(collection, filter, limit)] returns up to [limit] matching
    documents, each a mapping of field name to value plus its identifier;
    the filter is a conjunction of conditions. A filter with a regular
    expression outside the interpreted fragment is answered with an error,
    as the store answers a pattern it cannot compile. *)
Definition get_documents (collection_name : string) (f : filter_dict) (limit : Z)
  : M store (list doc) :=
  _ ← modify (record_call (Find collection_name));
  s ← get_state;
  if available s then
    if filter_valid f then
      mret (take (Z.to_nat limit)
              (filter (fun d => Is_true (matches f d)) (collection s collection_name)))
    else raise (Exception "Regular expression is invalid")
  else raise (Exception "Database not available").

(** ** The handle [db] of [database.py], as [/test] inspects it *)

(** Reading an attribute of an object: it is missing, has a value, or its
    lookup raises. *)
Inductive attribute (A : Type) : Type :=
  | Missing
  | Has (a : A)
  | Fails (msg : string).
Arguments Missing {A}.
Arguments Has {A} a.
Arguments Fails {A} msg.

(** A connected handle: its [name] attribute and what a call of
    [list_collection_names()] does, return names or raise. *)
Record Handle : Type := {
  name : attribute string;
  list_collection_names : string + list string
}.

End Database.
Export Database.

(* ===================================================================== *)
(** * Python built-ins used by the handlers *)
(* ===================================================================== *)

Module Python.

(** The number [z] against the float [f], compared exactly as Python
    compares an [int] with a [float]. *)
Definition SF_value (s : bool) (m : positive) : Z :=
  if s then Z.neg m else Z.pos m.

Definition Z_lt_float (z : Z) (f : float) : bool :=
  match Prim2SF f with
  | S754_nan => false
  | S754_infinity s => negb s
  | S754_zero _ => (z <? 0)%Z
  | S754_finite s m e =>
      if (0 <=? e)%Z then (z <? SF_value s m * 2 ^ e)%Z
      else (z * 2 ^ (- e) <? SF_value s m)%Z
  end.

Definition float_lt_Z (f : float) (z : Z) : bool :=
  match Prim2SF f with
  | S754_nan => false
  | S754_infinity s => s
  | S754_zero _ => (0 <? z)%Z
  | S754_finite s m e =>
      if (0 <=? e)%Z then (SF_value s m * 2 ^ e <? z)%Z
      else (SF_value s m <? z * 2 ^ (- e))%Z
  end.

(** Lexicographic order on lists of strings. *)
Fixpoint strs_ltb (a b : list string) : bool :=
  match a, b with
  | _, [] => false
  | [], _ :: _ => true
  | x :: a', y :: b' =>
      String.ltb x y || (bool_decide (x = y) && strs_ltb a' b')
  end.

(** [a < b]; [None] stands for the [TypeError] of values that have no
    order ([None] against anything, a number against a string, ...). *)
Definition py_lt (a b : value) : option bool :=
  match a, b with
  | VInt x, VInt y => Some (x <? y)%Z
  | VInt x, VFloat y => Some (Z_lt_float x y)
  | VFloat x, VInt y => Some (float_lt_Z x y)
  | VFloat x, VFloat y => Some (PrimFloat.ltb x y)
  | VStr x, VStr y => Some (String.ltb x y)
  | VStrs x, VStrs y => Some (strs_ltb x y)
  | VOid x, VOid y => Some (x <? y)%N
  | _, _ => None
  end.

Section Sorted.
Context {A : Type} (key : A -> value).

(** [x] goes behind the elements whose key is smaller and in front of
    the first one whose key is not: elements with equal keys keep the
    order they came in. *)
Fixpoint insert_sorted (x : A) (l : list A) : option (list A) :=
  match l with
  | [] => Some [x]
  | y :: l' =>
      b ← py_lt (key y) (key x);
      if b : bool then (y ::.) <$> insert_sorted x l' else Some (x :: y :: l')
  end.

(** [sorted(l, key=key)]: a stable sort that compares keys with [<]. *)
Fixpoint sorted (l : list A) : option (list A) :=
  match l with
  | [] => Some []
  | x :: l' => l'' ← sorted l'; insert_sorted x l''
  end.
End Sorted.

(** [range(a, b)] *)
Definition range (a b : Z) : list Z := seqZ a (b - a).

End Python.
Export Python.

(* ===================================================================== *)
(** * main.py *)
(* ===================================================================== *)

Module Main.

(** [except Exception as e: raise HTTPException(status_code=500, detail=str(e))] *)
Definition except_500 {A} (body : M store A) : M store A :=
  try_except body (fun e => raise (HTTPException 500 (str_exn e))).

(** [except HTTPException: raise] followed by the clause above. *)
Definition except_http_500 {A} (body : M store A) : M store A :=
  try_except body (fun e =>
    match e with
    | HTTPException _ _ => raise e
    | _ => raise (HTTPException 500 (str_exn e))
    end).

(** A handler with a body parameter: FastAPI validates the body against the
    model and calls the handler only when it validates. *)
Definition with_body {D A B} (validate : D -> list string + A)
    (handler : A -> M store B) (body : D) : M store B :=
  match validate body with
  | inl errs => raise (RequestValidationError errs)
  | inr a => handler a
  end.

(** A model built inside a handler: a failed validation is an exception. *)
Definition construct {D A} (validate : D -> list string + A) (data : D)
  : M store A :=
  match validate data with
  | inl errs => raise (Exception (String.concat "; " errs))
  | inr a => mret a
  end.

Definition setitem {V} (k : string) (v : V) : M (gmap string V) unit :=
  modify (<[k := v]>).

(** ** [GET /] *)
Definition read_root : doc := {["message" := VStr "E-Learning Backend Running"]}.

(** ** [GET /test] *)
Definition test_database (db : option Handle) (DATABASE_URL : option string)
  : result doc :=
  let response : doc :=
    <["backend" := VStr "✅ Running"]>
    (<["database" := VStr "❌ Not Available"]>
    (<["database_url" := VNull]>
    (<["database_name" := VNull]>
    (<["connection_status" := VStr "Not Connected"]>
    (<["collections" := VStrs []]> ∅))))) in
  let body : M doc unit :=
    try_except
      (match db with
       | Some db =>
           _ ← setitem "database" (VStr "✅ Available");
           _ ← setitem "database_url"
                 (VStr (if truthy_opt_str DATABASE_URL then "✅ Set" else "❌ Not Set"));
           db_name ← match name db with
                     | Has n => mret n
                     | Missing => mret "✅ Connected"
                     | Fails msg => raise (Exception msg)
                     end;
           _ ← setitem "database_name" (VStr db_name);
           _ ← setitem "connection_status" (VStr "Connected");
           try_except
             (collections ← match list_collection_names db with
                            | inr l => mret l
                            | inl msg => raise (Exception msg)
                            end;
              _ ← setitem "collections" (VStrs (take 10 collections));
              setitem "database" (VStr "✅ Connected & Working"))
             (fun e =>
                setitem "database"
                  (VStr ("⚠️ Connected but Error: " +:+ str_take 80 (str_exn e))))
       | None => setitem "database" (VStr "⚠️ Available but not initialized")
       end)
      (fun e => setitem "database" (VStr ("❌ Error: " +:+ str_take 80 (str_exn e))))
  in
  match body response with
  | (Ok _, response') => Ok response'
  | (Raise e, _) => Raise e
  end.

(** ** Courses *)

Definition create_course (course : Course) : M store doc :=
  except_500
    (course_id ← create_document "course" course;
     mret {["id" := VStr course_id]}).

Definition list_courses (tag q : option string) (limit : Z) : M store (list doc) :=
  except_500
    (let filter_dict : filter_dict := ∅ in
     let filter_dict :=
       match tag with
       | Some t =>
           if truthy_str t then <["tags" := Field (CIn [VStr t])]> filter_dict
           else filter_dict
       | None => filter_dict
       end in
     let filter_dict :=
       match q with
       | Some q =>
           if truthy_str q then
             <["$or" := Or [("title", CRegex q "i");
                            ("subtitle", CRegex q "i");
                            ("description", CRegex q "i");
                            ("tags", CRegex q "i")]]> filter_dict
           else filter_dict
       | None => filter_dict
       end in
     get_documents "course" filter_dict limit).

(** [ObjectId(s)] *)
Definition ObjectId (s : string) : M store N :=
  match oid_parse s with
  | Some oid => mret oid
  | None => raise (Exception "InvalidId")
  end.

Definition get_course (course_id : string) : M store doc :=
  except_http_500
    (if negb (oid_is_valid course_id) then
       raise (HTTPException 400 "Invalid course ID")
     else
       oid ← ObjectId course_id;
       docs ← get_documents "course" {["_id" := Field (CEq (VOid oid))]} 1;
       match docs with
       | [] => raise (HTTPException 404 "Course not found")
       | d :: _ => mret d
       end).

(** ** Lessons *)

Definition create_lesson (lesson : Lesson) : M store doc :=
  except_500
    (lesson_id ← create_document "lesson" lesson;
     mret {["id" := VStr lesson_id]}).

(** [lambda x: x.get("order", 0)] *)
Definition order_key (x : doc) : value := default (VInt 0) (x !! "order").

Definition list_lessons (course_id : string) : M store (list doc) :=
  except_500
    (lessons ← get_documents "lesson" {["course_id" := Field (CEq (VStr course_id))]} 200;
     match sorted order_key lessons with
     | Some lessons => mret lessons
     | None => raise (Exception "TypeError: '<' not supported")
     end).

(** ** Enrollment *)

Definition enroll (enrollment : Enrollment) : M store doc :=
  except_500
    (en_id ← create_document "enrollment" enrollment;
     mret {["id" := VStr en_id]}).

Definition list_enrollments (course_id : string) : M store (list doc) :=
  except_500
    (get_documents "enrollment" {["course_id" := Field (CEq (VStr course_id))]} 500).

(** ** Reviews *)

Definition create_review (review : Review) : M store doc :=
  except_500
    (rev_id ← create_document "review" review;
     mret {["id" := VStr rev_id]}).

Definition list_reviews (course_id : string) : M store (list doc) :=
  except_500
    (get_documents "review" {["course_id" := Field (CEq (VStr course_id))]} 200).

(** ** Seed *)

(* 19.99 and 24.99 stand for the nearest binary64 numbers, as in Python. *)
#[local] Set Warnings "-inexact-float".

Definition demo_courses : list CourseData :=
  [ {| d_title := Some "React for Beginners";
       d_subtitle := Some "Build dynamic UIs with hooks";
       d_description := Some "Learn the fundamentals of React, components, hooks, and state management by building hands-on projects.";
       d_instructor_name := Some "Alex Johnson";
       d_instructor_email := Some "alex@example.com";
       d_price := Some 19.99%float;
       d_thumbnail_url := Some "https://images.unsplash.com/photo-1526378722484-bd91ca387e72?w=800&q=80&auto=format&fit=crop";
       d_tags := Some ["react"; "frontend"; "javascript"];
       d_language := None;
       d_level := Some "Beginner" |};
    {| d_title := Some "FastAPI Bootcamp";
       d_subtitle := Some "Modern APIs with Python";
       d_description := Some "Create high-performance APIs with FastAPI, Pydantic, and MongoDB. Includes deployment tips.";
       d_instructor_name := Some "Samantha Lee";
       d_instructor_email := Some "sam@example.com";
       d_price := Some 24.99%float;
       d_thumbnail_url := Some "https://images.unsplash.com/photo-1518779578993-ec3579fee39f?w=800&q=80&auto=format&fit=crop";
       d_tags := Some ["python"; "api"; "backend"];
       d_language := None;
       d_level := Some "Intermediate" |};
    {| d_title := Some "Design Systems 101";
       d_subtitle := Some "Build cohesive UI libraries";
       d_description := Some "From typography to components, learn how to create maintainable design systems.";
       d_instructor_name := Some "Taylor Kim";
       d_instructor_email := Some "taylor@example.com";
       d_price := Some 0%float;
       d_thumbnail_url := Some "https://images.unsplash.com/photo-1529336953121-ad5a0d43d0d2?w=800&q=80&auto=format&fit=crop";
       d_tags := Some ["design"; "ui"; "ux"];
       d_language := None;
       d_level := Some "All Levels" |} ].

Definition demo_lesson (cid : string) (l_idx : Z) : LessonData :=
  {| dl_course_id := Some cid;
     dl_title := Some ("Lesson " +:+ pretty l_idx +:+ ": Topic Overview");
     dl_content := Some ("This is the content for lesson " +:+ pretty l_idx +:+
                         ". You'll learn key concepts and apply them in a mini project.");
     dl_video_url := None;
     dl_order := Some l_idx |}.

Definition seed_demo : M store (gmap string value) :=
  except_500
    (existing ← get_documents "course" ∅ 1;
     if truthy_list existing then
       mret (<["status" := VStr "ok"]> {["message" := VStr "Courses already exist"]})
     else
       demo_courses ← for_each demo_courses []
         (fun cs d => c ← construct Course_validate d; mret (cs ++ [c])%list);
       created_ids ← for_each demo_courses []
         (fun created_ids c =>
            cid ← create_document "course" c;
            _ ← for_each (range 1 4) tt
                  (fun _ l_idx =>
                     lesson ← construct Lesson_validate (demo_lesson cid l_idx);
                     _ ← create_document "lesson" lesson;
                     mret tt);
            mret (created_ids ++ [cid])%list);
       mret (<["status" := VStr "ok"]> {["created_courses" := VStrs created_ids]})).

(** ** The routes with a request body *)

Definition post_courses : CourseData -> M store doc := with_body Course_validate create_course.
Definition post_lessons : LessonData -> M store doc := with_body Lesson_validate create_lesson.
Definition post_enroll : EnrollmentData -> M store doc := with_body Enrollment_validate enroll.
Definition post_reviews : ReviewData -> M store doc := with_body Review_validate create_review.

End Main.
Export Main.

(* ===================================================================== *)
(** * Vocabulary of the properties *)
(* ===================================================================== *)

Module Props.

(** The documents a handler returned, none when it raised. *)
Definition returned {A} (r : result (list A)) : list A :=
  match r with
  | Ok l => l
  | Raise _ => []
  end.

(** The document [create_document] stores for a model. *)
Definition stored `{BaseModel A} (oid : N) (data : A) : doc :=
  <["_id" := VOid oid]> (model_dump data).

(** The identifier of the document is [oid]. *)
Definition has_id (oid : N) (d : doc) : bool :=
  match d !! "_id" with
  | Some (VOid n) => bool_decide (n = oid)
  | _ => false
  end.

(** The field [course_id] of the document is the string [cid]. *)
Definition of_course (cid : string) (d : doc) : bool :=
  match d !! "course_id" with
  | Some (VStr c) => bool_decide (c = cid)
  | _ => false
  end.

(** Identifiers are handed out in increasing order and have not wrapped
    around: every stored document carries an ObjectId below the next one. *)
Definition store_wf (s : store) : Prop :=
  (next_oid s < 2 ^ 96)%N ∧
  ∀ name d, d ∈ collection s name →
    ∃ n, d !! "_id" = Some (VOid n) ∧ (n < next_oid s)%N.

(** An empty database that answers. *)
Definition empty_store : store :=
  {| available := true; next_oid := 0; collections := ∅; calls := [] |}.

(** ** Substrings, case-insensitively *)

(** [s] in lower case. *)
Fixpoint lower_str (s : string) : string :=
  match s with
  | EmptyString => EmptyString
  | String c s' => String (lower c) (lower_str s')
  end.

(** [q] is a prefix of [s], up to the case of ASCII letters. *)
Fixpoint prefix_ci (q s : string) : bool :=
  match q, s with
  | EmptyString, _ => true
  | String a q', String x s' => bool_decide (lower a = lower x) && prefix_ci q' s'
  | String _ _, EmptyString => false
  end.

(** [q] appears in [s] as a substring, up to the case of ASCII letters. *)
Fixpoint contains_ci (q s : string) : bool :=
  prefix_ci q s ||
  match s with
  | String _ s' => contains_ci q s'
  | EmptyString => false
  end.

(** [q] appears in a free-text field: in the string, or in one of the
    strings of a list. *)
Definition field_mentions (q : string) (v : option value) : bool :=
  match v with
  | Some (VStr s) => contains_ci q s
  | Some (VStrs l) => existsb (contains_ci q) l
  | _ => false
  end.

(** [q] appears in the title, the subtitle, the description or the tags. *)
Definition course_mentions (q : string) (d : doc) : bool :=
  field_mentions q (d !! "title") || field_mentions q (d !! "subtitle") ||
  field_mentions q (d !! "description") || field_mentions q (d !! "tags").

(** The tags of the document are a list that contains [tag]. *)
Definition has_tag (tag : string) (d : doc) : bool :=
  match d !! "tags" with
  | Some (VStrs l) => bool_decide (tag ∈ l)
  | _ => false
  end.

(** The tags of the document are a list, as in every document made from a
    [Course]. *)
Definition tags_listed (d : doc) : bool :=
  match d !! "tags" with
  | Some (VStrs _) => true
  | _ => false
  end.

(** A search term without regular-expression metacharacters. *)
Definition literal (q : string) : bool :=
  forallb (fun c => negb (is_meta c)) (list_ascii_of_string q).

(** ** Lessons *)

(** The order of a lesson, 0 when the field is missing. *)
Definition order_of (d : doc) : Z :=
  match d !! "order" with
  | Some (VInt z) => z
  | _ => 0%Z
  end.

(** The order of the lesson is an integer, or the field is missing. *)
Definition order_typed (d : doc) : bool :=
  match d !! "order" with
  | Some (VInt _) | None => true
  | _ => false
  end.

(** The titles of the documents a handler returned. *)
Definition titles (r : result (list doc)) : list (option value) :=
  (fun d : doc => d !! "title") <$> returned r.

(** ** Shapes of values *)

Definition is_str (v : option value) : bool :=
  match v with
  | Some (VStr _) => true
  | _ => false
  end.

Definition is_str_or_null (v : option value) : bool :=
  match v with
  | Some (VStr _) | Some VNull => true
  | _ => false
  end.

(** ** The claims about [GET /api/courses], as stated *)

(** A stored course is returned for the search term [q] exactly when [q]
    appears, case-insensitively, in one of its four free-text fields. *)
Definition search_claim (q : string) (limit : Z) (s : store) : Prop :=
  ∀ d, d ∈ collection s "course" ->
    (d ∈ returned (list_courses None (Some q) limit s).1 ↔
     course_mentions q d = true).

(** The courses returned for [tag] are exactly the stored ones whose tags
    contain it, and a course returned for [tag] and [q] has the tag and
    mentions [q]. *)
Definition tag_claim (tag q : string) (limit : Z) (s : store) : Prop :=
  (∀ d, d ∈ returned (list_courses (Some tag) None limit s).1 ↔
        d ∈ collection s "course" ∧ has_tag tag d = true) ∧
  (∀ d, d ∈ returned (list_courses (Some tag) (Some q) limit s).1 ->
        has_tag tag d = true ∧ course_mentions q d = true).

(** ** Sample data *)

(** A course in which no full stop occurs. *)
Definition plain_course : CourseData :=
  {| d_title := Some "Intro to Python";
     d_subtitle := None;
     d_description := Some "Basics of the language";
     d_instructor_name := Some "Ada";
     d_instructor_email := Some "ada@example";
     d_price := None;
     d_thumbnail_url := None;
     d_tags := Some ["python"];
     d_language := None;
     d_level := None |}.

(** The store after [plain_course] is posted to an empty database. *)
Definition plain_store : store := (post_courses plain_course empty_store).2.

(** The store after [POST /api/seed] on an empty database. *)
Definition seeded_store : store := (seed_demo empty_store).2.

(** ** Sorting *)

(** The keys of the list are integers, read by [kz]. *)
Definition int_keys {A} (key : A -> value) (kz : A -> Z) (l : list A) : Prop :=
  Forall (fun x => key x = VInt (kz x)) l.

(** Non-decreasing order of two lessons. *)
Definition order_le (a b : doc) : Prop := (order_of a <= order_of b)%Z.

(** ** Seeding *)

(** The lesson [seed_demo] builds for position [l_idx] of course [cid]. *)
Definition demo_lesson_model (cid : string) (l_idx : Z) : Lesson :=
  {| l_course_id := cid;
     l_title := "Lesson " +:+ pretty l_idx +:+ ": Topic Overview";
     l_content := "This is the content for lesson " +:+ pretty l_idx +:+
                  ". You'll learn key concepts and apply them in a mini project.";
     l_video_url := None;
     l_order := l_idx |}.

(** The three lesson documents written for the course stored under [oid]:
    they take the three identifiers that follow [oid]. *)
Definition demo_lesson_docs (oid : N) : list doc :=
  [ stored (oid_succ oid) (demo_lesson_model (oid_str oid) 1);
    stored (oid_succ (oid_succ oid)) (demo_lesson_model (oid_str oid) 2);
    stored (oid_succ (oid_succ (oid_succ oid))) (demo_lesson_model (oid_str oid) 3) ].

(** The identifier four steps after [oid]: that of the next demo course. *)
Definition next_course_oid (oid : N) : N :=
  oid_succ (oid_succ (oid_succ (oid_succ oid))).

(** The answers of [seed_demo]. *)
Definition already_seeded : doc :=
  <["status" := VStr "ok"]> {["message" := VStr "Courses already exist"]}.

Definition seeded (ids : list string) : doc :=
  <["status" := VStr "ok"]> {["created_courses" := VStrs ids]}.

(** What a call of [seed_demo] that finds no course does to the store [s]:
    it stores the 3 demo courses under the next identifier and the ones 4
    and 8 steps later, appends 9 lessons, 3 for each new course with the
    orders 1, 2, 3, and returns the 3 course identifiers. *)
Definition seeds (s : store) : Prop :=
  ∃ c1 c2 c3 s' new,
    let n := next_oid s in
    let ids := [oid_str n; oid_str (n + 4); oid_str (n + 8)] in
    Course_validate <$> demo_courses = [inr c1; inr c2; inr c3] ∧
    seed_demo s = (Ok (seeded ids), s') ∧
    collection s' "course" =
      [stored n c1; stored (n + 4) c2; stored (n + 8) c3] ∧
    collection s' "lesson" = collection s "lesson" ++ new ∧
    length new = 9 ∧
    ∀ cid, cid ∈ ids ->
      order_of <$> filter (fun d => Is_true (of_course cid d)) new = [1; 2; 3]%Z.

(** The model [plain_course] validates to. *)
Definition plain_model : Course :=
  {| title := "Intro to Python";
     subtitle := None;
     description := "Basics of the language";
     instructor_name := "Ada";
     instructor_email := "ada@example";
     price := 0%float;
     thumbnail_url := None;
     tags := ["python"];
     language := "English";
     level := "Beginner" |}.




(** A handle that answers. *)
Definition working_handle : Handle :=
  {| name := Has "elearning"; list_collection_names := inr ["course"; "lesson"] |}.

(** ** Vocabulary of the further properties *)


(** The documents, the next identifier and the availability are the same in
    [s'] as in [s]. *)
Definition same_data (s s' : store) : Prop :=
  collections s' = collections s ∧ next_oid s' = next_oid s ∧
  available s' = available s.

(** A well-formed store with room for [k] more identifiers. *)
Definition wf_room (k : N) (s : store) : Prop :=
  store_wf s ∧ (next_oid s + k < 2 ^ 96)%N.

(** Every final store of [m] started in [P] is in [Q], whether [m] returns
    or raises. *)
Definition keeps {A} (P : store -> Prop) (m : M store A) (Q : store -> Prop) : Prop :=
  ∀ s, P s -> Q (m s).2.

(** ** Sample data of the further properties *)

(** A lesson, an enrollment and a review of the course with the identifier
    0, and the models they validate to. *)
Definition plain_lesson : LessonData :=
  {| dl_course_id := Some "000000000000000000000000";
     dl_title := Some "Variables";
     dl_content := Some "Names and values";
     dl_video_url := None;
     dl_order := Some 2%Z |}.

Definition plain_lesson_model : Lesson :=
  {| l_course_id := "000000000000000000000000";
     l_title := "Variables";
     l_content := "Names and values";
     l_video_url := None;
     l_order := 2 |}.












(** A store with two lessons of one course, the second with a null
    [order]. *)
Definition null_order_store : store :=
  {| available := true;
     next_oid := 2;
     collections :=
       {["lesson" := [stored 0 plain_lesson_model;
                      <["order" := VNull]> (stored 1 plain_lesson_model)]]};
     calls := [] |}.

(** A handle whose name cannot be read, and one that gives its name but
    fails to list its collections. *)
Definition failing_handle : Handle :=
  {| name := Fails "connection refused";
     list_collection_names := inl "connection refused" |}.

Definition silent_handle : Handle :=
  {| name := Has "elearning"; list_collection_names := inl "not authorized" |}.

End Props.
Export Props.

(* ===================================================================== *)
(** * Facts about ObjectIds *)
(* ===================================================================== *)

Section ObjectIdFacts.
Local Open Scope N_scope.

Lemma hex_value_digit d : d < 16 -> hex_value (hex_digit d) = Some d.
Proof.
  intros Hd.
  assert (Hcases : d ∈ [0; 1; 2; 3; 4; 5; 6; 7; 8; 9; 10; 11; 12; 13; 14; 15]).
  { rewrite !elem_of_cons. lia. }
  repeat (apply elem_of_cons in Hcases as [-> | Hcases]; [reflexivity |]).
  by apply elem_of_nil in Hcases.
Qed.

Lemma hex_acc_length w n acc :
  String.length (hex_acc w n acc) = (w + String.length acc)%nat.
Proof.
  revert n acc. induction w as [| w IH]; intros n acc; simpl; [done |].
  rewrite IH. simpl. lia.
Qed.

Lemma unhex_hex_acc w n rest a :
  unhex_acc (hex_acc w n rest) a = unhex_acc rest (a * 16 ^ N.of_nat w + n mod 16 ^ N.of_nat w).
Proof.
  revert n rest a. induction w as [| w IH]; intros n rest a.
  - simpl. rewrite N.mod_1_r. f_equal. lia.
  - cbn [hex_acc]. rewrite IH. cbn [unhex_acc].
    rewrite hex_value_digit by (apply N.mod_lt; lia).
    f_equal. rewrite Nat2N.inj_succ, N.pow_succ_r'.
    rewrite (N.Div0.mod_mul_r n 16 (16 ^ N.of_nat w)). lia.
Qed.

Lemma oid_str_valid n : oid_is_valid (oid_str n) = true.
Proof.
  unfold oid_is_valid, oid_str.
  rewrite hex_acc_length, unhex_hex_acc. simpl unhex_acc.
  rewrite !bool_decide_eq_true_2; eauto.
Qed.

Lemma oid_parse_str n : n < 2 ^ 96 -> oid_parse (oid_str n) = Some n.
Proof.
  intros Hn. unfold oid_parse. rewrite oid_str_valid.
  unfold oid_str. rewrite unhex_hex_acc. cbn [unhex_acc]. f_equal.
  change (16 ^ N.of_nat 24) with (2 ^ 96). rewrite N.mod_small by done. lia.
Qed.

Lemma oid_str_inj m n : m < 2 ^ 96 -> n < 2 ^ 96 -> oid_str m = oid_str n -> m = n.
Proof.
  intros Hm Hn Heq. apply (f_equal oid_parse) in Heq.
  rewrite !oid_parse_str in Heq by done. congruence.
Qed.
End ObjectIdFacts.

(* ===================================================================== *)
(** * Facts about the adapter and its filters *)
(* ===================================================================== *)

Section AdapterFacts.
Implicit Types (s : store) (d : doc).

Lemma get_documents_up name f limit s :
  available s = true -> filter_valid f = true ->
  get_documents name f limit s =
    (Ok (take (Z.to_nat limit)
           (filter (fun d => Is_true (matches f d)) (collection s name))),
     record_call (Find name) s).
Proof.
  intros Hav Hf. unfold get_documents, mbind, M_bind, modify, get_state. simpl.
  rewrite Hav, Hf. reflexivity.
Qed.

Lemma get_documents_down name f limit s :
  available s = false ->
  get_documents name f limit s =
    (Raise (Exception "Database not available"), record_call (Find name) s).
Proof.
  intros Hav. unfold get_documents, mbind, M_bind, modify, get_state. simpl.
  rewrite Hav. reflexivity.
Qed.

Lemma create_document_up `{BaseModel A} name (data : A) s :
  available s = true ->
  create_document name data s =
    (Ok (oid_str (next_oid s)),
     insert_one name (stored (next_oid s) data) (record_call (Insert name) s)).
Proof.
  intros Hav. unfold create_document, mbind, M_bind, modify, get_state. simpl.
  rewrite Hav. reflexivity.
Qed.

Lemma create_document_down `{BaseModel A} name (data : A) s :
  available s = false ->
  create_document name data s =
    (Raise (Exception "Database not available"), record_call (Insert name) s).
Proof.
  intros Hav. unfold create_document, mbind, M_bind, modify, get_state. simpl.
  rewrite Hav. reflexivity.
Qed.

Lemma collection_insert_one name d s :
  collection (insert_one name d s) name = collection s name ++ [d].
Proof. unfold collection, insert_one. simpl. apply lookup_total_insert_eq. Qed.

Lemma collection_insert_one_ne name name' d s :
  name ≠ name' -> collection (insert_one name d s) name' = collection s name'.
Proof. intros Hne. unfold collection, insert_one. simpl. by apply lookup_total_insert_ne. Qed.

Lemma matches_singleton k q d : matches {[k := q]} d = query_holds d k q.
Proof. unfold matches. rewrite map_to_list_singleton. simpl. apply andb_true_r. Qed.

Lemma matches_id oid d :
  matches {["_id" := Field (CEq (VOid oid))]} d = has_id oid d.
Proof.
  rewrite matches_singleton. unfold has_id. simpl.
  destruct (d !! "_id") as [[]|]; simpl; done.
Qed.

Lemma matches_course_id cid d :
  matches {["course_id" := Field (CEq (VStr cid))]} d = of_course cid d.
Proof.
  rewrite matches_singleton. unfold of_course. simpl.
  destruct (d !! "course_id") as [[]|]; simpl; done.
Qed.

Lemma matches_empty d : matches ∅ d = true.
Proof. unfold matches. by rewrite map_to_list_empty. Qed.

Lemma filter_valid_singleton_eq k v : filter_valid {[k := Field (CEq v)]} = true.
Proof. unfold filter_valid. by rewrite map_to_list_singleton. Qed.

Lemma filter_true (l : list doc) : filter (fun d => Is_true (matches ∅ d)) l = l.
Proof.
  induction l as [| d l IH]; [done |].
  rewrite filter_cons_True by (by rewrite matches_empty). by rewrite IH.
Qed.
End AdapterFacts.

(* ===================================================================== *)
(** * GET /api/courses/{course_id} *)
(* ===================================================================== *)

Section GetCourse.
Implicit Types (s : store) (d : doc).

Lemma get_course_invalid course_id s :
  oid_is_valid course_id = false ->
  get_course course_id s = (Raise (HTTPException 400 "Invalid course ID"), s).
Proof.
  intros Hv. unfold get_course, except_http_500, try_except. by rewrite Hv.
Qed.

Lemma get_course_valid course_id oid s :
  oid_parse course_id = Some oid -> available s = true ->
  get_course course_id s =
    (match filter (fun d => Is_true (has_id oid d)) (collection s "course") with
     | [] => Raise (HTTPException 404 "Course not found")
     | d :: _ => Ok d
     end,
     record_call (Find "course") s).
Proof.
  intros Hp Hav.
  assert (Hv : oid_is_valid course_id = true).
  { unfold oid_parse in Hp. by destruct (oid_is_valid course_id). }
  unfold get_course, except_http_500, try_except, ObjectId, mbind, M_bind.
  rewrite Hv, Hp. simpl.
  rewrite get_documents_up by (done || apply filter_valid_singleton_eq).
  rewrite (list_filter_iff _ (fun d => Is_true (has_id oid d)))
    by (intros d; by rewrite matches_id).
  destruct (filter _ _) as [| d l]; reflexivity.
Qed.

End GetCourse.

(* ===================================================================== *)
(** * The store invariant *)
(* ===================================================================== *)

Section StoreInvariant.
Implicit Types (s : store) (d : doc).

Lemma store_wf_empty : store_wf empty_store.
Proof.
  split; [done |]. intros name d Hd.
  unfold collection, empty_store in Hd. simpl in Hd.
  rewrite lookup_total_empty in Hd. by apply elem_of_nil in Hd.
Qed.

Lemma store_wf_record_call c s : store_wf s -> store_wf (record_call c s).
Proof. intros [Hn Hids]. split; done. Qed.

(** Inserting keeps the invariant as long as identifiers do not wrap. *)
Lemma store_wf_create `{BaseModel A} name (data : A) s :
  store_wf s -> (next_oid s + 1 < 2 ^ 96)%N ->
  store_wf (create_document name data s).2.
Proof.
  intros [Hn Hids] Hnext. destruct (available s) eqn:Hav.
  - rewrite create_document_up by done. simpl. split.
    + simpl. unfold oid_succ. apply N.mod_lt. lia.
    + intros name' d Hd. simpl. unfold oid_succ.
      rewrite N.mod_small by done.
      destruct (decide (name = name')) as [<- | Hne].
      * rewrite collection_insert_one in Hd.
        apply elem_of_app in Hd as [Hd | Hd].
        -- destruct (Hids name d Hd) as (n & Hid & Hlt).
           exists n. split; [done | lia].
        -- apply list_elem_of_singleton in Hd as ->.
           exists (next_oid s). split; [| lia].
           unfold stored. apply lookup_insert_eq.
      * rewrite collection_insert_one_ne in Hd by done.
        destruct (Hids name' d Hd) as (n & Hid & Hlt).
        exists n. split; [done | lia].
  - rewrite create_document_down by done. by apply store_wf_record_call.
Qed.

Lemma filter_none {A} (P : A -> Prop) `{!∀ x, Decision (P x)} (l : list A) :
  (∀ x, x ∈ l -> ¬ P x) -> filter P l = [].
Proof.
  induction l as [| x l IH]; intros Hl; [done |].
  rewrite filter_cons_False by (apply Hl; left).
  apply IH. intros y Hy. apply Hl. by right.
Qed.

(** No stored document carries the identifier that comes next. *)
Lemma store_wf_next_fresh name s :
  store_wf s ->
  filter (fun d => Is_true (has_id (next_oid s) d)) (collection s name) = [].
Proof.
  intros [_ Hids]. apply filter_none. intros d Hd Hid.
  destruct (Hids name d Hd) as (n & Hn & Hlt).
  unfold has_id in Hid. rewrite Hn in Hid.
  apply bool_decide_unpack in Hid. lia.
Qed.
End StoreInvariant.

(* ===================================================================== *)
(** * POST /api/courses, then GET /api/courses/{id} *)
(* ===================================================================== *)

Section CreateThenGet.
Implicit Types (s : store) (d : doc).

Lemma Course_validate_inr data c :
  Course_validate data = inr c ->
  c = {| title := default "" (d_title data);
         subtitle := d_subtitle data;
         description := default "" (d_description data);
         instructor_name := default "" (d_instructor_name data);
         instructor_email := default "" (d_instructor_email data);
         price := default 0%float (d_price data);
         thumbnail_url := d_thumbnail_url data;
         tags := default [] (d_tags data);
         language := default "English" (d_language data);
         level := default "Beginner" (d_level data) |} ∧
  is_Some (d_title data) ∧ is_Some (d_description data) ∧
  is_Some (d_instructor_name data) ∧ is_Some (d_instructor_email data) ∧
  price_ok (default 0%float (d_price data)) = true.
Proof.
  unfold Course_validate, Course_errors, required, constraint.
  destruct (d_title data), (d_description data), (d_instructor_name data),
    (d_instructor_email data), (price_ok _); simpl; intros Heq;
    try discriminate Heq.
  injection Heq as <-. eauto 10.
Qed.

Lemma create_course_up (c : Course) s :
  available s = true ->
  create_course c s =
    (Ok {["id" := VStr (oid_str (next_oid s))]},
     insert_one "course" (stored (next_oid s) c) (record_call (Insert "course") s)).
Proof.
  intros Hav. unfold create_course, except_500, try_except, mbind, M_bind.
  by rewrite create_document_up.
Qed.

(** C1. A Course payload that validates is stored by [POST /api/courses],
    which answers with a fresh identifier; [GET /api/courses/{id}] with
    that identifier then returns a record that holds the identifier under
    [_id] and, under the ten field names of a Course, the submitted values,
    with the defaults of the schema for the fields left out, and nothing
    else. *)
Theorem create_then_get_course (data : CourseData) (c : Course) (s : store) :
  Course_validate data = inr c -> available s = true -> store_wf s ->
  ∃ cid s1 r s2,
    post_courses data s = (Ok {["id" := VStr cid]}, s1) ∧
    get_course cid s1 = (Ok r, s2) ∧
    (∃ oid, r !! "_id" = Some (VOid oid) ∧ oid_str oid = cid) ∧
    r !! "title" = VStr <$> d_title data ∧
    r !! "subtitle" = Some (opt_str (d_subtitle data)) ∧
    r !! "description" = VStr <$> d_description data ∧
    r !! "instructor_name" = VStr <$> d_instructor_name data ∧
    r !! "instructor_email" = VStr <$> d_instructor_email data ∧
    r !! "price" = Some (VFloat (default 0%float (d_price data))) ∧
    r !! "thumbnail_url" = Some (opt_str (d_thumbnail_url data)) ∧
    r !! "tags" = Some (VStrs (default [] (d_tags data))) ∧
    r !! "language" = Some (VStr (default "English" (d_language data))) ∧
    r !! "level" = Some (VStr (default "Beginner" (d_level data))) ∧
    dom r = list_to_set ["_id"; "title"; "subtitle"; "description";
                         "instructor_name"; "instructor_email"; "price";
                         "thumbnail_url"; "tags"; "language"; "level"].
Proof.
  intros Hval Hav Hwf.
  exists (oid_str (next_oid s)), (insert_one "course" (stored (next_oid s) c)
                                   (record_call (Insert "course") s)),
    (stored (next_oid s) c).
  eexists. split.
  { unfold post_courses, with_body. rewrite Hval. by apply create_course_up. }
  split.
  { rewrite (get_course_valid _ (next_oid s)); [| apply oid_parse_str, Hwf | done].
    rewrite collection_insert_one, filter_app.
    change (collection (record_call _ s) "course") with (collection s "course").
    rewrite store_wf_next_fresh by done.
    rewrite filter_cons_True; [reflexivity |].
    unfold has_id, stored. rewrite lookup_insert_eq. by apply bool_decide_pack. }
  apply Course_validate_inr in Hval
    as (-> & [t Ht] & [ds Hds] & [n Hn] & [e He] & _).
  rewrite Ht, Hds, Hn, He. simpl.
  split; [by exists (next_oid s) |].
  repeat split; reflexivity.
Qed.
End CreateThenGet.

(* ===================================================================== *)
(** * Requests that do not validate *)
(* ===================================================================== *)

Section Validation.
Implicit Types (s : store).



End Validation.

(* ===================================================================== *)
(** * GET /test *)
(* ===================================================================== *)

Section Diagnostics.

(** C8, as the code has it. [/test] returns for every handle and every
    environment, without raising: the object has exactly the six keys;
    [backend], [database] and [connection_status] are strings;
    [collections] is a list of at most 10 strings; [database_url] and
    [database_name] are strings or null, both null when there is no
    handle, and both strings when there is one whose [name] can be
    read. *)
Theorem test_database_returns (db : option Handle) (DATABASE_URL : option string) :
  ∃ r, test_database db DATABASE_URL = Ok r ∧
    status (test_database db DATABASE_URL) = 200%nat ∧
    dom r = list_to_set ["backend"; "database"; "database_url";
                         "database_name"; "connection_status"; "collections"] ∧
    is_str (r !! "backend") = true ∧
    is_str (r !! "database") = true ∧
    is_str (r !! "connection_status") = true ∧
    (∃ l, r !! "collections" = Some (VStrs l) ∧ length l <= 10) ∧
    is_str_or_null (r !! "database_url") = true ∧
    is_str_or_null (r !! "database_name") = true ∧
    (db = None -> r !! "database_url" = Some VNull ∧ r !! "database_name" = Some VNull) ∧
    (∀ h, db = Some h -> (∀ msg, name h ≠ Fails msg) ->
       is_str (r !! "database_url") = true ∧ is_str (r !! "database_name") = true).
Proof.
  destruct db as [[nm cols] |]; [destruct nm as [| n | msg], cols as [msg' | l] |];
    (eexists; split; [reflexivity |]);
    do 5 (split; [reflexivity |]);
    (split; [eexists; split; [reflexivity | simpl; rewrite ?length_take; lia] |]);
    do 2 (split; [reflexivity |]);
    (split; [intros Hdb | intros h Hdb Hname]);
    try discriminate Hdb; try (split; reflexivity);
    injection Hdb as <-; simpl in Hname; try (split; reflexivity);
    by destruct (Hname msg).
Qed.
End Diagnostics.

(* ===================================================================== *)
(** * Case-insensitive substrings *)
(* ===================================================================== *)

Section Substrings.
(** [prefix_ci] and [contains_ci] decide what their names say: [s] splits
    into a part before, a part that equals [q] up to case, and a part
    after. *)
Lemma prefix_ci_spec q s :
  prefix_ci q s = true <->
  ∃ mid post, s = mid +:+ post ∧ lower_str mid = lower_str q.
Proof.
  revert s. induction q as [| a q IH]; intros s; simpl.
  - split; [| done]. intros _. by exists "", s.
  - destruct s as [| x s].
    + split; [done |]. intros (mid & post & Hs & Hmid).
      destruct mid; simpl in *; discriminate.
    + rewrite andb_true_iff, bool_decide_eq_true, IH. split.
      * intros (Hax & mid & post & -> & Hmid).
        exists (String x mid), post. simpl. by rewrite Hmid, Hax.
      * intros (mid & post & Hs & Hmid).
        destruct mid as [| y mid]; simpl in *; [discriminate |].
        injection Hs as -> ->. injection Hmid as Hyx Hmid.
        split; [done |]. by exists mid, post.
Qed.

Lemma contains_ci_spec q s :
  contains_ci q s = true <->
  ∃ pre mid post, s = pre +:+ mid +:+ post ∧ lower_str mid = lower_str q.
Proof.
  induction s as [| x s IH]; simpl.
  - rewrite orb_false_r, prefix_ci_spec. split.
    + intros (mid & post & Hs & Hmid). by exists "", mid, post.
    + intros (pre & mid & post & Hs & Hmid).
      destruct pre; simpl in *; [by exists mid, post | discriminate].
  - rewrite orb_true_iff, prefix_ci_spec, IH. split.
    + intros [(mid & post & Hs & Hmid) | (pre & mid & post & -> & Hmid)].
      * by exists "", mid, post.
      * by exists (String x pre), mid, post.
    + intros (pre & mid & post & Hs & Hmid).
      destruct pre as [| y pre]; simpl in *.
      * left. by exists mid, post.
      * injection Hs as -> ->. right. by exists pre, mid, post.
Qed.
End Substrings.

(* ===================================================================== *)
(** * Regular expressions without metacharacters *)
(* ===================================================================== *)

Section LiteralPatterns.

Lemma compile_literal q :
  literal q = true -> compile q = Some (Lit <$> list_ascii_of_string q).
Proof.
  unfold literal. induction q as [| c q IH]; simpl; [done |].
  intros [Hc Hq]%andb_true_iff. apply negb_true_iff in Hc.
  rewrite bool_decide_eq_false_2.
  - rewrite Hc, IH by done. reflexivity.
  - intros ->. discriminate Hc.
Qed.

Lemma match_here_literal q s :
  match_here true (Lit <$> list_ascii_of_string q) s = prefix_ci q s.
Proof.
  revert s. induction q as [| c q IH]; intros s; simpl; [done |].
  destruct s as [| x s]; [done |]. by rewrite IH.
Qed.

Lemma match_anywhere_literal q s :
  match_anywhere true (Lit <$> list_ascii_of_string q) s = contains_ci q s.
Proof.
  induction s as [| x s IH]; simpl.
  - by rewrite match_here_literal.
  - by rewrite match_here_literal, IH.
Qed.

(** On a pattern without metacharacters a case-insensitive search is a
    case-insensitive substring test. *)
Lemma regex_search_literal q s :
  literal q = true -> regex_search q "i" s = contains_ci q s.
Proof.
  intros Hq. unfold regex_search. rewrite compile_literal by done.
  apply match_anywhere_literal.
Qed.

Lemma cond_holds_literal q v :
  literal q = true -> cond_holds (CRegex q "i") v = field_mentions q v.
Proof.
  intros Hq. destruct v as [[] |]; simpl; try done.
  - by apply regex_search_literal.
  - induction l as [| x l IH]; simpl; [done |].
    by rewrite regex_search_literal, IH.
Qed.

Lemma cond_valid_literal q : literal q = true -> cond_valid (CRegex q "i") = true.
Proof.
  intros Hq. simpl. rewrite compile_literal by done. by apply bool_decide_eq_true_2.
Qed.
End LiteralPatterns.

(* ===================================================================== *)
(** * GET /api/courses *)
(* ===================================================================== *)

Section ListCourses.
Implicit Types (s : store) (d : doc).

Lemma filter_in_iff {A} (P Q : A -> Prop)
    `{!∀ x, Decision (P x), !∀ x, Decision (Q x)} (l : list A) :
  (∀ x, x ∈ l -> P x ↔ Q x) -> filter P l = filter Q l.
Proof.
  induction l as [| x l IH]; intros Hl; [done |].
  rewrite !filter_cons, IH by (intros y Hy; apply Hl; by right).
  apply decide_ext, Hl. by left.
Qed.

Lemma map_to_list_two (a b : query) :
  map_to_list (<["$or" := b]> (<["tags" := a]> (∅ : filter_dict))) =
    [("tags", a); ("$or", b)].
Proof. reflexivity. Qed.

Lemma or_holds_literal q d :
  literal q = true ->
  query_holds d "$or"
    (Or [("title", CRegex q "i"); ("subtitle", CRegex q "i");
         ("description", CRegex q "i"); ("tags", CRegex q "i")]) =
  course_mentions q d.
Proof.
  intros Hq. unfold course_mentions, query_holds.
  cbn [existsb fst snd].
  rewrite !cond_holds_literal by done. by rewrite orb_false_r, !orb_assoc.
Qed.

Lemma in_holds_tag tag d :
  tags_listed d = true ->
  query_holds d "tags" (Field (CIn [VStr tag])) = has_tag tag d.
Proof.
  unfold tags_listed, has_tag. simpl.
  destruct (d !! "tags") as [[] |]; try discriminate. intros _.
  induction l as [| x l IH]; simpl; [done |].
  rewrite IH, orb_false_r, <- bool_decide_or.
  apply bool_decide_ext. rewrite elem_of_cons.
  split; (intros [Heq | Hin]; [left; congruence | by right]).
Qed.

Lemma list_courses_run limit s f :
  available s = true -> filter_valid f = true ->
  except_500 (get_documents "course" f limit) s =
    (Ok (take (Z.to_nat limit)
           (filter (fun d => Is_true (matches f d)) (collection s "course"))),
     record_call (Find "course") s).
Proof.
  intros Hav Hf. unfold except_500, try_except. by rewrite get_documents_up.
Qed.

Lemma truthy_str_nonempty x : x ≠ "" -> truthy_str x = true.
Proof. intros Hx. unfold truthy_str. by rewrite bool_decide_eq_false_2. Qed.

Lemma list_courses_q q limit s :
  literal q = true -> q ≠ "" -> available s = true ->
  (list_courses None (Some q) limit s).1 =
    Ok (take (Z.to_nat limit)
          (filter (fun d => Is_true (course_mentions q d)) (collection s "course"))).
Proof.
  intros Hlit Hq Hav. unfold list_courses. cbv beta iota zeta.
  rewrite (truthy_str_nonempty q) by done.
  rewrite insert_empty, list_courses_run; [| done |].
  - simpl. do 2 f_equal. apply list_filter_iff. intros d.
    by rewrite matches_singleton, or_holds_literal.
  - unfold filter_valid. rewrite map_to_list_singleton.
    cbn [forallb snd query_valid]. by rewrite !cond_valid_literal.
Qed.

Lemma list_courses_tag tag limit s :
  tag ≠ "" -> available s = true ->
  forallb tags_listed (collection s "course") = true ->
  (list_courses (Some tag) None limit s).1 =
    Ok (take (Z.to_nat limit)
          (filter (fun d => Is_true (has_tag tag d)) (collection s "course"))).
Proof.
  intros Htag Hav Htags. unfold list_courses. cbv beta iota zeta.
  rewrite (truthy_str_nonempty tag) by done.
  rewrite insert_empty, list_courses_run; [| done |].
  - simpl. do 2 f_equal. apply filter_in_iff. intros d Hd.
    rewrite matches_singleton, in_holds_tag; [done |].
    rewrite forallb_forall in Htags. by apply Htags, list_elem_of_In.
  - unfold filter_valid. by rewrite map_to_list_singleton.
Qed.

Lemma list_courses_tag_q tag q limit s :
  tag ≠ "" -> literal q = true -> q ≠ "" -> available s = true ->
  forallb tags_listed (collection s "course") = true ->
  (list_courses (Some tag) (Some q) limit s).1 =
    Ok (take (Z.to_nat limit)
          (filter (fun d => Is_true (has_tag tag d && course_mentions q d))
             (collection s "course"))).
Proof.
  intros Htag Hlit Hq Hav Htags. unfold list_courses. cbv beta iota zeta.
  rewrite (truthy_str_nonempty tag), (truthy_str_nonempty q) by done.
  rewrite list_courses_run; [| done |].
  - simpl. do 2 f_equal. apply filter_in_iff. intros d Hd.
    unfold matches. rewrite map_to_list_two. cbn [forallb fst snd].
    rewrite in_holds_tag, or_holds_literal, andb_true_r; [done.. |].
    rewrite forallb_forall in Htags. by apply Htags, list_elem_of_In.
  - unfold filter_valid. rewrite map_to_list_two.
    cbn [forallb snd query_valid]. by rewrite !cond_valid_literal.
Qed.

(** C3, as the code has it. For a search term [q] that is not empty and
    has no regular-expression metacharacter, and a database that answers,
    [GET /api/courses?q=] returns, in the order of the store, the first
    [limit] of the stored courses in which [q] appears, case-insensitively,
    in the title, the subtitle, the description or a tag; so when no more
    than [limit] courses qualify, a stored course is returned exactly when
    it qualifies. *)
Theorem list_courses_search (q : string) (limit : Z) (s : store) :
  literal q = true -> q ≠ "" -> available s = true ->
  (list_courses None (Some q) limit s).1 =
    Ok (take (Z.to_nat limit)
          (filter (fun d => Is_true (course_mentions q d)) (collection s "course"))) ∧
  (length (filter (fun d => Is_true (course_mentions q d)) (collection s "course"))
     <= Z.to_nat limit ->
   search_claim q limit s).
Proof.
  intros Hlit Hq Hav. split; [by apply list_courses_q |].
  intros Hlen d Hd. rewrite list_courses_q by done. simpl.
  rewrite take_ge by done. rewrite list_elem_of_filter, Is_true_true.
  tauto.
Qed.

(** C7, as the code has it. For a tag that is not empty, a database that
    answers and stored courses whose tags are lists,
    [GET /api/courses?tag=] returns, in the order of the store, the first
    [limit] of the stored courses whose tags contain the tag; with a search
    term [q] as well, not empty and without metacharacters, it returns the
    first [limit] of the stored courses that both contain the tag and
    mention [q]; so when no more than [limit] courses carry the tag, the
    courses returned for the tag are exactly those that carry it. *)
Theorem list_courses_by_tag (tag : string) (limit : Z) (s : store) :
  tag ≠ "" -> available s = true ->
  forallb tags_listed (collection s "course") = true ->
  (list_courses (Some tag) None limit s).1 =
    Ok (take (Z.to_nat limit)
          (filter (fun d => Is_true (has_tag tag d)) (collection s "course"))) ∧
  (∀ q, literal q = true -> q ≠ "" ->
     (list_courses (Some tag) (Some q) limit s).1 =
       Ok (take (Z.to_nat limit)
             (filter (fun d => Is_true (has_tag tag d && course_mentions q d))
                (collection s "course")))) ∧
  (∀ q, literal q = true -> q ≠ "" ->
     length (filter (fun d => Is_true (has_tag tag d)) (collection s "course"))
       <= Z.to_nat limit ->
     tag_claim tag q limit s).
Proof.
  intros Htag Hav Htags. split; [by apply list_courses_tag |].
  split; [intros q Hlit Hq; by apply list_courses_tag_q |].
  intros q Hlit Hq Hlen. split; intros d.
  - rewrite list_courses_tag by done. simpl.
    rewrite take_ge by done. rewrite list_elem_of_filter, Is_true_true. tauto.
  - rewrite list_courses_tag_q by done. simpl. intros Hd.
    apply subseteq_take, list_elem_of_filter in Hd as [Hd _].
    by apply Is_true_true, andb_true_iff in Hd.
Qed.

(** C10. An empty [tag] and an empty [q] add no condition: the handler
    does what it does without the parameter, and with neither it returns
    the first [limit] courses of the store. *)
Theorem list_courses_empty_param (tag q : option string) (limit : Z) (s : store) :
  list_courses (Some "") q limit s = list_courses None q limit s ∧
  list_courses tag (Some "") limit s = list_courses tag None limit s ∧
  (list_courses (Some "") (Some "") limit s).1 =
    (if available s then Ok (take (Z.to_nat limit) (collection s "course"))
     else Raise (HTTPException 500 "Database not available")).
Proof.
  split; [reflexivity |]. split; [reflexivity |].
  unfold list_courses. cbv beta iota zeta. simpl truthy_str. cbv iota.
  unfold except_500, try_except. destruct (available s) eqn:Hav.
  - rewrite get_documents_up by done. simpl. by rewrite filter_true.
  - by rewrite get_documents_down.
Qed.
End ListCourses.

(* ===================================================================== *)
(** * Sorting with integer keys *)
(* ===================================================================== *)

Section SortedFacts.
Context {A : Type} (key : A -> value) (kz : A -> Z).

Local Abbreviation key_le := (fun a b : A => (kz a <= kz b)%Z).
Local Abbreviation int_keys := (int_keys key kz).

Lemma insert_sorted_perm x l l' :
  insert_sorted key x l = Some l' -> l' ≡ₚ x :: l.
Proof.
  revert l'. induction l as [| y l IH]; intros l' Hins; simpl in Hins.
  - by injection Hins as <-.
  - destruct (py_lt (key y) (key x)) as [[] |]; simpl in Hins; [| | done].
    + destruct (insert_sorted key x l) as [l1 |]; [| done].
      injection Hins as <-. rewrite (IH l1) by done. apply Permutation_swap.
    + by injection Hins as <-.
Qed.

Lemma sorted_perm l l' : sorted key l = Some l' -> l' ≡ₚ l.
Proof.
  revert l'. induction l as [| x l IH]; intros l' Hs; simpl in Hs.
  - by injection Hs as <-.
  - destruct (sorted key l) as [l1 |]; [| done]. simpl in Hs.
    rewrite (insert_sorted_perm _ _ _ Hs). by rewrite (IH l1).
Qed.

Lemma insert_sorted_int x l :
  int_keys (x :: l) -> StronglySorted key_le l ->
  ∃ l', insert_sorted key x l = Some l' ∧ StronglySorted key_le l'.
Proof.
  intros [Hx Hl]%Forall_cons. induction l as [| y l IH]; intros Hsorted; simpl.
  - eexists. split; [done |]. repeat constructor.
  - apply Forall_cons in Hl as [Hy Hl].
    apply StronglySorted_cons in Hsorted as [Hyl Hsorted].
    rewrite Hx, Hy. simpl. destruct (Z.ltb_spec (kz y) (kz x)) as [Hlt | Hge].
    + destruct (IH Hl Hsorted) as (l1 & Hins & Hs1). rewrite Hins. simpl.
      eexists. split; [done |]. apply StronglySorted_cons. split; [| done].
      rewrite (insert_sorted_perm _ _ _ Hins). constructor; [simpl; lia | done].
    + eexists. split; [done |].
      apply StronglySorted_cons. split.
      * constructor; [done |].
        eapply Forall_impl; [exact Hyl |]. simpl. intros; lia.
      * by apply StronglySorted_cons.
Qed.

(** With integer keys [sorted] returns, and what it returns is the list
    rearranged in non-decreasing order of the keys. *)
Lemma sorted_int l :
  int_keys l ->
  ∃ l', sorted key l = Some l' ∧ l' ≡ₚ l ∧ StronglySorted key_le l'.
Proof.
  induction l as [| x l IH]; intros Hl; simpl.
  - eexists. split; [done |]. split; [done | constructor].
  - pose proof Hl as [Hx Hl']%Forall_cons.
    destruct (IH Hl') as (l1 & Hs & Hp & Hsorted). rewrite Hs. simpl.
    destruct (insert_sorted_int x l1) as (l2 & Hins & Hs2); [| done |].
    { apply Forall_cons. split; [done |]. unfold int_keys. by rewrite Hp. }
    exists l2. split; [done |]. split; [| done].
    rewrite (insert_sorted_perm _ _ _ Hins). by constructor.
Qed.

End SortedFacts.

(* ===================================================================== *)
(** * GET /api/courses/{course_id}/lessons *)
(* ===================================================================== *)

Section ListLessons.
Implicit Types (s : store) (d : doc).

Lemma order_key_typed d : order_typed d = true -> order_key d = VInt (order_of d).
Proof.
  unfold order_typed, order_key, order_of.
  by destruct (d !! "order") as [[] |].
Qed.


(** What the store hands to [list_lessons]. *)
Lemma list_lessons_query course_id s :
  available s = true ->
  get_documents "lesson" {["course_id" := Field (CEq (VStr course_id))]} 200 s =
    (Ok (take 200 (filter (fun d => Is_true (of_course course_id d))
                     (collection s "lesson"))),
     record_call (Find "lesson") s).
Proof.
  intros Hav. rewrite get_documents_up by (done || apply filter_valid_singleton_eq).
  do 3 f_equal. apply list_filter_iff. intros d. by rewrite matches_course_id.
Qed.

(** The lessons the store hands back for a course. *)
Local Abbreviation found course_id s :=
  (take 200 (filter (fun d => Is_true (of_course course_id d))
               (collection s "lesson"))).

Lemma list_lessons_run course_id s :
  available s = true ->
  (list_lessons course_id s).1 =
    match sorted order_key (found course_id s) with
    | Some lessons => Ok lessons
    | None => Raise (HTTPException 500 "TypeError: '<' not supported")
    end.
Proof.
  intros Hav. unfold list_lessons, except_500, try_except, mbind, M_bind.
  rewrite list_lessons_query by done. by destruct (sorted order_key _).
Qed.

Lemma found_elem course_id s d :
  d ∈ found course_id s ->
  d ∈ collection s "lesson" ∧ of_course course_id d = true.
Proof.
  intros Hd. apply subseteq_take, list_elem_of_filter in Hd as [Hc Hd].
  split; [done | by apply Is_true_true].
Qed.

Lemma found_int_keys course_id s :
  forallb order_typed (collection s "lesson") = true ->
  int_keys order_key order_of (found course_id s).
Proof.
  intros Htyped. apply Forall_forall. intros d [Hd _]%found_elem.
  apply order_key_typed. rewrite forallb_forall in Htyped.
  by apply Htyped, list_elem_of_In.
Qed.


End ListLessons.

(* ===================================================================== *)
(** * POST /api/seed *)
(* ===================================================================== *)

Section Seed.
Implicit Types (s : store) (d : doc).

(** One insertion into a database that answers. *)
Lemma create_document_step `{BaseModel A} name (data : A) s :
  available s = true ->
  ∃ s', create_document name data s = (Ok (oid_str (next_oid s)), s') ∧
    available s' = true ∧
    next_oid s' = oid_succ (next_oid s) ∧
    collection s' name = collection s name ++ [stored (next_oid s) data] ∧
    (∀ name', name ≠ name' -> collection s' name' = collection s name').
Proof.
  intros Hav. eexists. split; [by apply create_document_up |].
  split; [done |]. split; [done |]. split.
  - by rewrite collection_insert_one.
  - intros name' Hne. by rewrite collection_insert_one_ne.
Qed.

Lemma demo_lesson_valid cid l_idx :
  (0 <= l_idx)%Z ->
  Lesson_validate (demo_lesson cid l_idx) = inr (demo_lesson_model cid l_idx).
Proof.
  intros Hidx. unfold Lesson_validate, Lesson_errors, demo_lesson. simpl.
  unfold order_ok. by rewrite (proj2 (Z.leb_le 0 l_idx) Hidx).
Qed.

(** The inner loop of [seed_demo]: three lessons for the course [oid]. *)
Lemma seed_lessons_step oid s :
  available s = true -> next_oid s = oid_succ oid ->
  ∃ s',
    for_each (range 1 4) tt
      (fun _ l_idx =>
         lesson ← construct Lesson_validate (demo_lesson (oid_str oid) l_idx);
         _ ← create_document "lesson" lesson;
         mret tt) s = (Ok tt, s') ∧
    available s' = true ∧
    next_oid s' = next_course_oid oid ∧
    collection s' "lesson" = collection s "lesson" ++ demo_lesson_docs oid ∧
    collection s' "course" = collection s "course".
Proof.
  intros Hav Hnext.
  destruct (create_document_step "lesson" (demo_lesson_model (oid_str oid) 1) s Hav)
    as (s1 & Hrun1 & Hav1 & Hnext1 & Hles1 & Hoth1).
  destruct (create_document_step "lesson" (demo_lesson_model (oid_str oid) 2) s1 Hav1)
    as (s2 & Hrun2 & Hav2 & Hnext2 & Hles2 & Hoth2).
  destruct (create_document_step "lesson" (demo_lesson_model (oid_str oid) 3) s2 Hav2)
    as (s3 & Hrun3 & Hav3 & Hnext3 & Hles3 & Hoth3).
  exists s3. split; [| split; [done |]; split; [| split]].
  - change (range 1 4) with [1; 2; 3]%Z. cbn [for_each].
    unfold construct, mbind, M_bind, mret, M_ret.
    rewrite !demo_lesson_valid by done.
    rewrite Hrun1. cbv beta iota. rewrite Hrun2. cbv beta iota. by rewrite Hrun3.
  - rewrite Hnext3, Hnext2, Hnext1, Hnext. reflexivity.
  - rewrite Hles3, Hles2, Hles1, Hnext2, Hnext1, Hnext.
    by rewrite <- !(assoc_L (++)).
  - by rewrite Hoth3, Hoth2, Hoth1.
Qed.

(** One round of the outer loop: a course and its three lessons. *)
Lemma seed_course_step (c : Course) (created_ids : list string) s :
  available s = true ->
  ∃ s',
    (cid ← create_document "course" c;
     _ ← for_each (range 1 4) tt
           (fun _ l_idx =>
              lesson ← construct Lesson_validate (demo_lesson cid l_idx);
              _ ← create_document "lesson" lesson;
              mret tt);
     mret (created_ids ++ [cid])) s
      = (Ok (created_ids ++ [oid_str (next_oid s)]), s') ∧
    available s' = true ∧
    next_oid s' = next_course_oid (next_oid s) ∧
    collection s' "course" = collection s "course" ++ [stored (next_oid s) c] ∧
    collection s' "lesson" = collection s "lesson" ++ demo_lesson_docs (next_oid s).
Proof.
  intros Hav.
  destruct (create_document_step "course" c s Hav)
    as (s1 & Hrun1 & Hav1 & Hnext1 & Hcourse1 & Hoth1).
  destruct (seed_lessons_step (next_oid s) s1 Hav1 Hnext1)
    as (s2 & Hrun2 & Hav2 & Hnext2 & Hles2 & Hcourse2).
  exists s2. split; [| split; [done |]; split; [done |]; split].
  - unfold mbind at 1 2. unfold M_bind at 1 2.
    rewrite Hrun1. cbv beta iota. by rewrite Hrun2.
  - by rewrite Hcourse2, Hcourse1.
  - rewrite Hles2. by rewrite Hoth1.
Qed.

Lemma demo_courses_built :
  ∃ c1 c2 c3,
    Course_validate <$> demo_courses = [inr c1; inr c2; inr c3] ∧
    ∀ s, for_each demo_courses []
           (fun cs data => c ← construct Course_validate data; mret (cs ++ [c])) s
         = (Ok [c1; c2; c3], s).
Proof. do 3 eexists. split; [reflexivity |]. intros s. reflexivity. Qed.

Lemma seed_demo_down s :
  available s = false ->
  seed_demo s =
    (Raise (HTTPException 500 "Database not available"), record_call (Find "course") s).
Proof.
  intros Hav. unfold seed_demo, except_500, try_except, mbind, M_bind.
  by rewrite get_documents_down.
Qed.

Lemma seed_demo_existing s :
  available s = true -> collection s "course" ≠ [] ->
  seed_demo s = (Ok already_seeded, record_call (Find "course") s).
Proof.
  intros Hav Hne. unfold seed_demo, except_500, try_except, mbind, M_bind.
  rewrite get_documents_up by done. rewrite filter_true.
  by destruct (collection s "course").
Qed.

Lemma seed_demo_fresh s :
  available s = true -> collection s "course" = [] ->
  ∃ c1 c2 c3 s',
    let n1 := next_oid s in
    let n2 := next_course_oid n1 in
    let n3 := next_course_oid n2 in
    Course_validate <$> demo_courses = [inr c1; inr c2; inr c3] ∧
    seed_demo s = (Ok (seeded [oid_str n1; oid_str n2; oid_str n3]), s') ∧
    available s' = true ∧
    collection s' "course" = [stored n1 c1; stored n2 c2; stored n3 c3] ∧
    collection s' "lesson" =
      collection s "lesson" ++
      demo_lesson_docs n1 ++ demo_lesson_docs n2 ++ demo_lesson_docs n3.
Proof.
  intros Hav Hempty.
  destruct demo_courses_built as (c1 & c2 & c3 & Hvalid & Hbuilt).
  set (s0 := record_call (Find "course") s).
  destruct (seed_course_step c1 [] s0 Hav)
    as (s1 & Hrun1 & Hav1 & Hnext1 & Hcourse1 & Hles1).
  destruct (seed_course_step c2 ([] ++ [oid_str (next_oid s0)]) s1 Hav1)
    as (s2 & Hrun2 & Hav2 & Hnext2 & Hcourse2 & Hles2).
  destruct (seed_course_step c3
              (([] ++ [oid_str (next_oid s0)]) ++ [oid_str (next_oid s1)]) s2 Hav2)
    as (s3 & Hrun3 & Hav3 & Hnext3 & Hcourse3 & Hles3).
  exists c1, c2, c3, s3. cbv zeta. split; [done |]. split; [| split; [done |]; split].
  - unfold seed_demo, except_500, try_except.
    unfold mbind at 1. unfold M_bind at 1.
    rewrite get_documents_up by done. rewrite filter_true, Hempty.
    change (truthy_list (take (Z.to_nat 1) [])) with false. cbv iota beta. fold s0.
    unfold mbind at 1. unfold M_bind at 1. rewrite Hbuilt.
    cbn [for_each]. unfold mbind at 1 2 3 4. unfold M_bind at 1 2 3 4.
    rewrite Hrun1. cbv beta iota. rewrite Hrun2. cbv beta iota. rewrite Hrun3.
    cbv beta iota. rewrite Hnext2, Hnext1. reflexivity.
  - rewrite Hcourse3, Hcourse2, Hcourse1, Hnext2, Hnext1.
    change (collection s0 "course") with (collection s "course").
    by rewrite Hempty.
  - rewrite Hles3, Hles2, Hles1, Hnext2, Hnext1.
    change (collection s0 "lesson") with (collection s "lesson").
    by rewrite <- !(assoc_L (++)).
Qed.

Lemma oid_succ_small n : (n + 1 < 2 ^ 96)%N -> oid_succ n = (n + 1)%N.
Proof. intros Hn. unfold oid_succ. by apply N.mod_small. Qed.

Lemma next_course_oid_small n :
  (n + 4 < 2 ^ 96)%N -> next_course_oid n = (n + 4)%N.
Proof.
  intros Hn. unfold next_course_oid.
  rewrite (oid_succ_small n) by lia.
  rewrite (oid_succ_small (n + 1)) by lia.
  rewrite (oid_succ_small (n + 1 + 1)) by lia.
  rewrite (oid_succ_small (n + 1 + 1 + 1)) by lia. lia.
Qed.

Lemma filter_demo_lessons cid oid :
  filter (fun d => Is_true (of_course cid d)) (demo_lesson_docs oid) =
    if decide (oid_str oid = cid) then demo_lesson_docs oid else [].
Proof.
  unfold demo_lesson_docs. destruct (decide (oid_str oid = cid)) as [Heq | Hne].
  - rewrite !filter_cons_True; [done | ..];
      unfold of_course, stored; simpl; by apply bool_decide_pack.
  - rewrite !filter_cons_False; [done | ..];
      unfold of_course, stored; simpl; intros Hc; by apply bool_decide_unpack in Hc.
Qed.

Lemma order_of_demo_lessons oid : order_of <$> demo_lesson_docs oid = [1; 2; 3]%Z.
Proof. reflexivity. Qed.

(** C6. [POST /api/seed] on a database that answers: when a course exists
    it reports so and writes nothing; when none exists (and identifiers do
    not wrap around during the call) it stores the 3 demo courses and, for
    each, 3 lessons of order 1, 2, 3 that refer to it, 9 lessons in all, and
    returns the 3 new course identifiers. In every case a second call leaves
    the number of courses as the first call left it. *)
Theorem seed_demo_outcomes (s : store) :
  (available s = true -> collection s "course" ≠ [] ->
     seed_demo s = (Ok already_seeded, record_call (Find "course") s) ∧
     collections (seed_demo s).2 = collections s) ∧
  (available s = true -> collection s "course" = [] ->
   (next_oid s + 12 < 2 ^ 96)%N ->
     seeds s) ∧
  length (collection (seed_demo (seed_demo s).2).2 "course") =
    length (collection (seed_demo s).2 "course").
Proof.
  split; [| split].
  - intros Hav Hne. by rewrite seed_demo_existing.
  - intros Hav Hempty Hbound.
    destruct (seed_demo_fresh s Hav Hempty)
      as (c1 & c2 & c3 & s' & Hvalid & Hrun & _ & Hcourse & Hlesson).
    rewrite !next_course_oid_small in Hrun, Hcourse, Hlesson by lia.
    replace (next_oid s + 4 + 4)%N with (next_oid s + 8)%N in * by lia.
    unfold seeds. eexists c1, c2, c3, s', _. cbv zeta.
    split; [done |]. split; [done |]. split; [done |]. split; [done |].
    split; [done |]. intros cid Hcid.
    assert (Hdistinct : ∀ a b : N, (a < 12)%N -> (b < 12)%N -> a ≠ b ->
              oid_str (next_oid s + a) ≠ oid_str (next_oid s + b)).
    { intros a b Ha Hb Hab Heq. apply oid_str_inj in Heq; lia. }
    pose proof (Hdistinct 0 4)%N as H04. pose proof (Hdistinct 0 8)%N as H08.
    pose proof (Hdistinct 4 8)%N as H48. rewrite N.add_0_r in H04, H08.
    rewrite !filter_app, !filter_demo_lessons.
    repeat (apply elem_of_cons in Hcid as [-> | Hcid]);
      [| | | by apply elem_of_nil in Hcid];
      repeat case_decide; try reflexivity; exfalso;
      first [by eapply H04; [lia..|] | by eapply H08; [lia..|]
            | by eapply H48; [lia..|] | done].
  - destruct (available s) eqn:Hav.
    + destruct (collection s "course") as [| d0 l0] eqn:Hcourses.
      * destruct (seed_demo_fresh s Hav Hcourses)
          as (c1 & c2 & c3 & s' & _ & Hrun & Hav' & Hcourse & _).
        rewrite Hrun. simpl.
        rewrite seed_demo_existing; [done | done |]. by rewrite Hcourse.
      * rewrite (seed_demo_existing s) by (done || by rewrite Hcourses).
        simpl. rewrite seed_demo_existing; [done | done |].
        change (collection (record_call _ s) "course") with (collection s "course").
        by rewrite Hcourses.
    + rewrite (seed_demo_down s) by done. simpl. by rewrite seed_demo_down.
Qed.
End Seed.

(* ===================================================================== *)
(** * The properties at concrete inputs *)
(* ===================================================================== *)

Section Examples.

(** ** The handlers on the seeded store *)

Example search_ignores_case :
  titles (list_courses None (Some "REACT") 50 seeded_store).1 =
    [Some (VStr "React for Beginners")].
Proof. reflexivity. Qed.

Example search_reads_tags :
  titles (list_courses None (Some "backend") 50 seeded_store).1 =
    [Some (VStr "FastAPI Bootcamp")].
Proof. reflexivity. Qed.

Example tag_is_exact :
  titles (list_courses (Some "pyth") None 50 seeded_store).1 = [] ∧
  titles (list_courses (Some "python") None 50 seeded_store).1 =
    [Some (VStr "FastAPI Bootcamp")].
Proof. split; reflexivity. Qed.

Example unbalanced_parenthesis :
  status (list_courses None (Some "(") 50 seeded_store).1 = 500.
Proof. reflexivity. Qed.

Example lessons_of_first_course :
  (fun d : doc => d !! "order") <$> returned (list_lessons (oid_str 0) seeded_store).1 =
    [Some (VInt 1); Some (VInt 2); Some (VInt 3)].
Proof. reflexivity. Qed.

Example seed_twice :
  (seed_demo seeded_store).1 = Ok already_seeded ∧
  length (collection (seed_demo seeded_store).2 "course") = 3.
Proof. split; reflexivity. Qed.

Example sorted_puts_missing_first :
  let a : doc := {["order" := VInt 2]} in
  let b : doc := ∅ in
  let c : doc := {["order" := VInt 1]} in
  sorted order_key [a; b; c] = Some [b; c; a].
Proof. reflexivity. Qed.

Example sorted_mixed_keys_raises :
  let a : doc := {["order" := VInt 2]} in
  let b : doc := {["order" := VStr "first"]} in
  sorted order_key [a; b] = None.
Proof. reflexivity. Qed.

(** ** Witnesses and counterexamples *)

(** C1 at [plain_course] and an empty database. *)
Lemma create_then_get_course_witness :
  Course_validate plain_course = inr plain_model ∧
  available empty_store = true ∧
  ∃ cid s1 r s2,
    post_courses plain_course empty_store = (Ok {["id" := VStr cid]}, s1) ∧
    get_course cid s1 = (Ok r, s2) ∧
    (∃ oid, r !! "_id" = Some (VOid oid) ∧ oid_str oid = cid) ∧
    r !! "title" = VStr <$> d_title plain_course ∧
    r !! "subtitle" = Some (opt_str (d_subtitle plain_course)) ∧
    r !! "description" = VStr <$> d_description plain_course ∧
    r !! "instructor_name" = VStr <$> d_instructor_name plain_course ∧
    r !! "instructor_email" = VStr <$> d_instructor_email plain_course ∧
    r !! "price" = Some (VFloat (default 0%float (d_price plain_course))) ∧
    r !! "thumbnail_url" = Some (opt_str (d_thumbnail_url plain_course)) ∧
    r !! "tags" = Some (VStrs (default [] (d_tags plain_course))) ∧
    r !! "language" = Some (VStr (default "English" (d_language plain_course))) ∧
    r !! "level" = Some (VStr (default "Beginner" (d_level plain_course))) ∧
    dom r = list_to_set ["_id"; "title"; "subtitle"; "description";
                         "instructor_name"; "instructor_email"; "price";
                         "thumbnail_url"; "tags"; "language"; "level"].
Proof.
  split; [reflexivity |]. split; [reflexivity |].
  apply (create_then_get_course plain_course plain_model empty_store);
    [reflexivity | reflexivity | apply store_wf_empty].
Defined.



(** C3 as stated fails: for [q = "."] the course of [plain_store] is
    returned although no full stop occurs in it. *)
Lemma search_dot_counterexample : ¬ search_claim "." 50 plain_store.
Proof.
  intros Hclaim.
  assert (Hstored : collection plain_store "course" = [stored 0 plain_model])
    by reflexivity.
  assert (Hret : returned (list_courses None (Some ".") 50 plain_store).1 =
                   [stored 0 plain_model]) by reflexivity.
  assert (Hmentions : course_mentions "." (stored 0 plain_model) = false)
    by reflexivity.
  destruct (Hclaim (stored 0 plain_model)) as [Hyes _].
  { rewrite Hstored. left. }
  rewrite Hret, Hmentions in Hyes. discriminate Hyes. left.
Qed.

(** C3 at [q = "react"] on the seeded store. *)
Lemma list_courses_search_witness :
  literal "react" = true ∧ "react" ≠ "" ∧ available seeded_store = true ∧
  (list_courses None (Some "react") 50 seeded_store).1 =
    Ok (take (Z.to_nat 50)
          (filter (fun d => Is_true (course_mentions "react" d))
             (collection seeded_store "course"))) ∧
  search_claim "react" 50 seeded_store.
Proof.
  split; [reflexivity |]. split; [discriminate |]. split; [reflexivity |].
  destruct (list_courses_search "react" 50 seeded_store) as [Hrun Hclaim];
    [reflexivity | discriminate | reflexivity |].
  split; [exact Hrun |]. apply Hclaim. vm_compute. lia.
Defined.



(** C6 on the seeded store, where a course exists, and on an empty store,
    where none does. *)
Lemma seed_demo_outcomes_witness :
  (available seeded_store = true ∧ collection seeded_store "course" ≠ [] ∧
   seed_demo seeded_store =
     (Ok already_seeded, record_call (Find "course") seeded_store) ∧
   collections (seed_demo seeded_store).2 = collections seeded_store) ∧
  (available empty_store = true ∧ collection empty_store "course" = [] ∧
   (next_oid empty_store + 12 < 2 ^ 96)%N ∧
   seeds empty_store).
Proof.
  assert (Hcount : length (collection seeded_store "course") = 3) by reflexivity.
  assert (Hsome : collection seeded_store "course" ≠ []).
  { intros Hnone. rewrite Hnone in Hcount. discriminate Hcount. }
  assert (Hbound : (next_oid empty_store + 12 < 2 ^ 96)%N) by (vm_compute; reflexivity).
  split.
  - split; [reflexivity |]. split; [exact Hsome |].
    exact (proj1 (seed_demo_outcomes seeded_store) eq_refl Hsome).
  - split; [reflexivity |]. split; [reflexivity |]. split; [exact Hbound |].
    exact (proj1 (proj2 (seed_demo_outcomes empty_store)) eq_refl eq_refl Hbound).
Defined.

(** C7 as stated fails: for [tag = "python"] and [q = "."] the course of
    [plain_store] is returned although no full stop occurs in it. *)
Lemma tag_dot_counterexample : ¬ tag_claim "python" "." 50 plain_store.
Proof.
  intros [_ Hboth].
  assert (Hret : returned (list_courses (Some "python") (Some ".") 50 plain_store).1 =
                   [stored 0 plain_model]) by reflexivity.
  assert (Hmentions : course_mentions "." (stored 0 plain_model) = false)
    by reflexivity.
  destruct (Hboth (stored 0 plain_model)) as [_ Hyes].
  { rewrite Hret. left. }
  rewrite Hmentions in Hyes. discriminate Hyes.
Qed.

(** C7 at [tag = "python"] and [q = "api"] on the seeded store. *)
Lemma list_courses_by_tag_witness :
  "python" ≠ "" ∧ available seeded_store = true ∧
  forallb tags_listed (collection seeded_store "course") = true ∧
  (list_courses (Some "python") None 50 seeded_store).1 =
    Ok (take (Z.to_nat 50)
          (filter (fun d => Is_true (has_tag "python" d))
             (collection seeded_store "course"))) ∧
  (list_courses (Some "python") (Some "api") 50 seeded_store).1 =
    Ok (take (Z.to_nat 50)
          (filter (fun d => Is_true (has_tag "python" d && course_mentions "api" d))
             (collection seeded_store "course"))) ∧
  tag_claim "python" "api" 50 seeded_store.
Proof.
  split; [discriminate |]. split; [reflexivity |]. split; [reflexivity |].
  destruct (list_courses_by_tag "python" 50 seeded_store)
    as (Htag & Hboth & Hclaim); [discriminate | reflexivity | reflexivity |].
  split; [exact Htag |]. split.
  - apply Hboth; [reflexivity | discriminate].
  - apply Hclaim; [reflexivity | discriminate |]. vm_compute. lia.
Defined.

(** C8 as stated fails: without a handle [database_url] and
    [database_name] are null, not strings. *)
Lemma test_database_null_counterexample :
  ∃ r, test_database None None = Ok r ∧
    is_str (r !! "database_url") = false ∧
    is_str (r !! "database_name") = false.
Proof. eexists. split; [reflexivity |]. split; reflexivity. Qed.

(** C8 without a handle and with a handle that answers. *)
Lemma test_database_returns_witness :
  (∃ r, test_database None None = Ok r ∧
     r !! "database_url" = Some VNull ∧ r !! "database_name" = Some VNull) ∧
  (∃ r, test_database (Some working_handle) (Some "mongodb://localhost") = Ok r ∧
     is_str (r !! "database_url") = true ∧ is_str (r !! "database_name") = true).
Proof.
  split.
  - destruct (test_database_returns None None)
      as (r & Hrun & _ & _ & _ & _ & _ & _ & _ & _ & Hnone & _).
    exists r. split; [exact Hrun | by apply Hnone].
  - destruct (test_database_returns (Some working_handle) (Some "mongodb://localhost"))
      as (r & Hrun & _ & _ & _ & _ & _ & _ & _ & _ & _ & Hsome).
    exists r. split; [exact Hrun |].
    apply (Hsome working_handle eq_refl). discriminate.
Defined.

End Examples.

(* ===================================================================== *)
(** * Further properties: request bodies *)
(* ===================================================================== *)

Section Bodies.
Implicit Types (s : store).






End Bodies.

(* ===================================================================== *)
(** * Further properties: creating and listing *)
(* ===================================================================== *)

Section CreateAndList.
Implicit Types (s : store) (d : doc).

(** The four handlers that create a document, on a database that answers. *)
Lemma create_lesson_up (l : Lesson) s :
  available s = true ->
  create_lesson l s =
    (Ok {["id" := VStr (oid_str (next_oid s))]},
     insert_one "lesson" (stored (next_oid s) l) (record_call (Insert "lesson") s)).
Proof.
  intros Hav. unfold create_lesson, except_500, try_except, mbind, M_bind.
  by rewrite create_document_up.
Qed.





(** What [list_enrollments] and [list_reviews] do to a store. *)
Lemma list_enrollments_run course_id s :
  list_enrollments course_id s =
    (if available s then
       Ok (take 500 (filter (fun d => Is_true (of_course course_id d))
                       (collection s "enrollment")))
     else Raise (HTTPException 500 "Database not available"),
     record_call (Find "enrollment") s).
Proof.
  unfold list_enrollments, except_500, try_except. destruct (available s) eqn:Hav.
  - rewrite get_documents_up by (done || apply filter_valid_singleton_eq).
    do 3 f_equal. apply list_filter_iff. intros d. by rewrite matches_course_id.
  - by rewrite get_documents_down.
Qed.

Lemma list_reviews_run course_id s :
  list_reviews course_id s =
    (if available s then
       Ok (take 200 (filter (fun d => Is_true (of_course course_id d))
                       (collection s "review")))
     else Raise (HTTPException 500 "Database not available"),
     record_call (Find "review") s).
Proof.
  unfold list_reviews, except_500, try_except. destruct (available s) eqn:Hav.
  - rewrite get_documents_up by (done || apply filter_valid_singleton_eq).
    do 3 f_equal. apply list_filter_iff. intros d. by rewrite matches_course_id.
  - by rewrite get_documents_down.
Qed.



End CreateAndList.

(* ===================================================================== *)
(** * Further properties: what the handlers leave alone *)
(* ===================================================================== *)

Section Frames.
Implicit Types (s : store) (d : doc).

(** X7. A lesson that is posted is among the lessons listed for its course,
    which are one more than before and in non-decreasing order, as long as
    the course had fewer than 200 and the stored orders are integers or
    missing. *)
Theorem lesson_then_list (data : LessonData) (l : Lesson) (s : store) :
  Lesson_validate data = inr l -> available s = true ->
  forallb order_typed (collection s "lesson") = true ->
  length (filter (fun d => Is_true (of_course (l_course_id l) d))
            (collection s "lesson")) < 200 ->
  ∃ lessons,
    (list_lessons (l_course_id l) (post_lessons data s).2).1 = Ok lessons ∧
    stored (next_oid s) l ∈ lessons ∧
    length lessons =
      S (length (filter (fun d => Is_true (of_course (l_course_id l) d))
                   (collection s "lesson"))) ∧
    StronglySorted order_le lessons.
Proof.
  intros Hv Hav Htyped Hlen.
  unfold post_lessons, with_body. rewrite Hv, create_lesson_up by done. simpl.
  set (s1 := insert_one _ _ _).
  assert (Hcol : collection s1 "lesson" =
                 collection s "lesson" ++ [stored (next_oid s) l])
    by (unfold s1; rewrite collection_insert_one; reflexivity).
  assert (Htyped1 : forallb order_typed (collection s1 "lesson") = true).
  { rewrite Hcol, forallb_app, Htyped. reflexivity. }
  assert (Hfound : take 200 (filter (fun d => Is_true (of_course (l_course_id l) d))
                               (collection s1 "lesson")) =
                   filter (fun d => Is_true (of_course (l_course_id l) d))
                     (collection s "lesson") ++ [stored (next_oid s) l]).
  { rewrite Hcol, filter_app, filter_cons_True.
    - rewrite take_ge; [done | rewrite length_app; simpl; lia].
    - unfold of_course, stored. simpl. by apply bool_decide_pack. }
  destruct (sorted_int order_key order_of
              (take 200 (filter (fun d => Is_true (of_course (l_course_id l) d))
                           (collection s1 "lesson"))))
    as (lessons & Hs & Hp & Hsorted); [by apply found_int_keys |].
  exists lessons. split; [| split; [| split]].
  - rewrite list_lessons_run by done. by rewrite Hs.
  - rewrite Hp, Hfound. apply elem_of_app. right. left.
  - rewrite Hp, Hfound, length_app. simpl. lia.
  - exact Hsorted.
Qed.

Lemma get_documents_state name f limit s :
  (get_documents name f limit s).2 = record_call (Find name) s.
Proof.
  unfold get_documents, mbind, M_bind, modify, get_state. simpl.
  by destruct (available s), (filter_valid f).
Qed.

Lemma except_500_state {A} (m : M store A) s : (except_500 m s).2 = (m s).2.
Proof. unfold except_500, try_except. by destruct (m s) as [[] ?]. Qed.

Lemma same_data_record_call c s : same_data s (record_call c s).
Proof. done. Qed.

Lemma list_courses_same_data tag q limit s :
  same_data s (list_courses tag q limit s).2.
Proof.
  unfold list_courses. rewrite except_500_state, get_documents_state.
  apply same_data_record_call.
Qed.

Lemma get_course_same_data course_id s : same_data s (get_course course_id s).2.
Proof.
  unfold get_course, except_http_500, try_except, ObjectId, mbind, M_bind.
  destruct (oid_is_valid course_id); simpl; [| by split].
  destruct (oid_parse course_id); simpl; [| by split].
  destruct (get_documents _ _ _ s) as [r s'] eqn:Hrun.
  pose proof (f_equal snd Hrun) as Hs'.
  rewrite get_documents_state in Hs'. simpl in Hs'. subst s'.
  destruct r as [[| ? ?] | []]; apply same_data_record_call.
Qed.

Lemma list_lessons_same_data course_id s : same_data s (list_lessons course_id s).2.
Proof.
  unfold list_lessons. rewrite except_500_state. unfold mbind, M_bind.
  destruct (get_documents _ _ _ s) as [r s'] eqn:Hrun.
  pose proof (f_equal snd Hrun) as Hs'.
  rewrite get_documents_state in Hs'. simpl in Hs'. subst s'.
  destruct r as [lessons | ?]; [| apply same_data_record_call].
  destruct (sorted order_key lessons); apply same_data_record_call.
Qed.

(** X8. The five GET handlers write nothing: whatever their parameters and
    whether they succeed or fail, the collections, the next identifier and
    the availability of the store are afterwards what they were. *)
Theorem readers_leave_data (tag q : option string) (limit : Z)
    (course_id : string) (s : store) :
  same_data s (list_courses tag q limit s).2 ∧
  same_data s (get_course course_id s).2 ∧
  same_data s (list_lessons course_id s).2 ∧
  same_data s (list_enrollments course_id s).2 ∧
  same_data s (list_reviews course_id s).2.
Proof.
  split; [apply list_courses_same_data |].
  split; [apply get_course_same_data |].
  split; [apply list_lessons_same_data |]. split.
  - rewrite list_enrollments_run. apply same_data_record_call.
  - rewrite list_reviews_run. apply same_data_record_call.
Qed.

End Frames.

(* ===================================================================== *)
(** * Further properties: the store invariant under the handlers *)
(* ===================================================================== *)

Section Invariant.
Implicit Types (s : store) (d : doc) (k : N).

Lemma wf_room_mono k k' s : (k <= k')%N -> wf_room k' s -> wf_room k s.
Proof. intros Hk [Hwf Hroom]. split; [done | lia]. Qed.

Lemma wf_room_same_data k s s' : same_data s s' -> wf_room k s -> wf_room k s'.
Proof.
  intros (Hcols & Hnext & _) [[Hn Hids] Hroom]. unfold wf_room, store_wf, collection.
  rewrite Hcols, Hnext. done.
Qed.

Lemma keeps_ret {A} (P : store -> Prop) (a : A) : keeps P (mret a) P.
Proof. by intros s HP. Qed.

Lemma keeps_bind {A B} (P R Q : store -> Prop) (m : M store A) (f : A -> M store B) :
  keeps P m R -> (∀ s, R s -> Q s) -> (∀ a, keeps R (f a) Q) ->
  keeps P (m ≫= f) Q.
Proof.
  intros Hm HRQ Hf s HP. unfold mbind, M_bind. specialize (Hm s HP).
  destruct (m s) as [[a | e] s']; simpl in *; [by apply Hf | by apply HRQ].
Qed.

Lemma keeps_pre {A} (P P' Q : store -> Prop) (m : M store A) :
  (∀ s, P s -> P' s) -> keeps P' m Q -> keeps P m Q.
Proof. intros HP Hm s Hs. by apply Hm, HP. Qed.

(** As [keeps_bind], with what is known of the value [m] returns. *)
Lemma keeps_bind_value {A B} (V : A -> Prop) (P R Q : store -> Prop)
    (m : M store A) (f : A -> M store B) :
  (∀ s a s', m s = (Ok a, s') -> V a) ->
  keeps P m R -> (∀ s, R s -> Q s) -> (∀ a, V a -> keeps R (f a) Q) ->
  keeps P (m ≫= f) Q.
Proof.
  intros HV Hm HRQ Hf s HP. unfold mbind, M_bind. specialize (Hm s HP).
  destruct (m s) as [[a | e] s'] eqn:Hrun; simpl in *; [| by apply HRQ].
  apply Hf; [by eapply HV | done].
Qed.

Lemma keeps_except_500 {A} (P Q : store -> Prop) (m : M store A) :
  keeps P m Q -> keeps P (except_500 m) Q.
Proof. intros Hm s HP. rewrite except_500_state. by apply Hm. Qed.

Lemma keeps_with_body {D A B} (P Q : store -> Prop) (validate : D -> list string + A)
    (handler : A -> M store B) body :
  (∀ s, P s -> Q s) -> (∀ a, keeps P (handler a) Q) ->
  keeps P (with_body validate handler body) Q.
Proof.
  intros HPQ Hh s HP. unfold with_body.
  destruct (validate body); [by apply HPQ | by apply Hh].
Qed.

Lemma keeps_construct {D A} (P : store -> Prop) (validate : D -> list string + A) data :
  keeps P (construct validate data) P.
Proof. intros s HP. unfold construct. by destruct (validate data). Qed.

(** An insertion takes one of the identifiers there is room for. *)
Lemma keeps_create_document `{BaseModel A} k name (data : A) :
  keeps (wf_room (k + 1)) (create_document name data) (wf_room k).
Proof.
  intros s [Hwf Hroom]. split; [apply store_wf_create; [done | lia] |].
  destruct (available s) eqn:Hav.
  - rewrite create_document_up by done. simpl. unfold oid_succ.
    rewrite N.mod_small by lia. lia.
  - rewrite create_document_down by done. simpl. lia.
Qed.

Lemma keeps_get_documents k name f limit :
  keeps (wf_room k) (get_documents name f limit) (wf_room k).
Proof.
  intros s Hs. rewrite get_documents_state.
  apply (wf_room_same_data k s); [apply same_data_record_call | done].
Qed.

(** A loop whose body takes [c] identifiers each time round. *)
Lemma keeps_for_each {A B} (c : N) (body : B -> A -> M store B) :
  (∀ k acc x, keeps (wf_room (k + c)) (body acc x) (wf_room k)) ->
  ∀ xs k acc,
    keeps (wf_room (k + c * N.of_nat (length xs))) (for_each xs acc body) (wf_room k).
Proof.
  intros Hbody xs. induction xs as [| x xs IH]; intros k acc; simpl for_each.
  - intros s Hs. eapply wf_room_mono; [| exact Hs]; lia.
  - apply (keeps_bind _ (wf_room (k + c * N.of_nat (length xs)))).
    + intros s Hs. apply Hbody. eapply wf_room_mono; [| exact Hs].
      simpl length. lia.
    + intros s. apply wf_room_mono. lia.
    + intros acc'. apply IH.
Qed.

Lemma keeps_create_handler {A} `{BaseModel A} k name (data : A) :
  keeps (wf_room (k + 1))
    (except_500 (id ← create_document name data; mret ({["id" := VStr id]} : doc)))
    (wf_room k).
Proof.
  apply keeps_except_500, (keeps_bind _ (wf_room k));
    [apply keeps_create_document | done | intros; apply keeps_ret].
Qed.

Lemma keeps_seed_demo k : keeps (wf_room (k + 12)) seed_demo (wf_room k).
Proof.
  unfold seed_demo. apply keeps_except_500.
  apply (keeps_bind _ (wf_room (k + 12))); [apply keeps_get_documents | |].
  { intros s. apply wf_room_mono. lia. }
  intros existing. destruct (truthy_list existing).
  { intros s Hs. eapply wf_room_mono; [| exact Hs]; lia. }
  destruct demo_courses_built as (c1 & c2 & c3 & _ & Hbuilt).
  apply (keeps_bind_value (fun courses => length courses = 3) _ (wf_room (k + 12))).
  - intros s courses s' Hrun. rewrite Hbuilt in Hrun. by injection Hrun as <- _.
  - apply (keeps_pre _ (wf_room (k + 12 + 0 * N.of_nat (length demo_courses))));
      [intros s; apply wf_room_mono; lia |].
    apply keeps_for_each. intros k' acc x.
    apply (keeps_bind _ (wf_room (k' + 0)));
      [apply keeps_construct | intros s; apply wf_room_mono; lia |].
    intros c s Hs. eapply wf_room_mono; [| exact Hs]; lia.
  - intros s. apply wf_room_mono. lia.
  - intros courses Hlen.
    apply (keeps_bind _ (wf_room k)); [| done | intros; apply keeps_ret].
    apply (keeps_pre _ (wf_room (k + 4 * N.of_nat (length courses))));
      [intros s; apply wf_room_mono; rewrite Hlen; lia |].
    apply keeps_for_each. intros k' acc c.
    apply (keeps_bind _ (wf_room (k' + 3)));
      [apply (keeps_pre _ (wf_room (k' + 3 + 1)));
         [intros s; apply wf_room_mono; lia | apply keeps_create_document]
      | intros s; apply wf_room_mono; lia |].
    intros cid.
    apply (keeps_bind _ (wf_room k')); [| done | intros; apply keeps_ret].
    change (range 1 4) with [1; 2; 3]%Z.
    apply (keeps_pre _ (wf_room (k' + 1 * N.of_nat (length [1; 2; 3]%Z))));
      [intros s; apply wf_room_mono; simpl; lia |].
    apply keeps_for_each. intros k'' [] l_idx.
    apply (keeps_bind _ (wf_room (k'' + 1))); [apply keeps_construct | |].
    { intros s. apply wf_room_mono. lia. }
    intros lesson.
    apply (keeps_bind _ (wf_room k'')); [apply keeps_create_document | done |].
    intros; apply keeps_ret.
Qed.

(** X10. Every handler of [main.py] keeps the store well formed: started
    in a store whose documents carry identifiers below the next one, with
    room for 12 more identifiers, it ends, whatever it is given and whether
    it succeeds or fails, in a store of the same kind. *)
Theorem handlers_keep_store_wf (s : store) :
  store_wf s -> (next_oid s + 12 < 2 ^ 96)%N ->
  (∀ data, store_wf (post_courses data s).2) ∧
  (∀ data, store_wf (post_lessons data s).2) ∧
  (∀ data, store_wf (post_enroll data s).2) ∧
  (∀ data, store_wf (post_reviews data s).2) ∧
  (∀ tag q limit, store_wf (list_courses tag q limit s).2) ∧
  (∀ course_id,
     store_wf (get_course course_id s).2 ∧
     store_wf (list_lessons course_id s).2 ∧
     store_wf (list_enrollments course_id s).2 ∧
     store_wf (list_reviews course_id s).2) ∧
  store_wf (seed_demo s).2.
Proof.
  intros Hwf Hroom.
  assert (Hs : wf_room (0 + 12) s) by (split; [done | lia]).
  assert (Hone : wf_room (0 + 1) s) by (apply (wf_room_mono _ (0 + 12)); [lia | done]).
  assert (Hzero : wf_room 0 s) by (apply (wf_room_mono _ (0 + 12)); [lia | done]).
  assert (Hpost : ∀ {D A} `{BaseModel A} (validate : D -> list string + A) name data,
            store_wf (with_body validate (fun a : A =>
              except_500 (id ← create_document name a;
                          mret ({["id" := VStr id]} : doc))) data s).2).
  { intros D A HA validate name data.
    apply (keeps_with_body (wf_room (0 + 1)) (wf_room 0)); [| | done].
    - intros s'. apply wf_room_mono. lia.
    - intros a. apply keeps_create_handler. }
  split; [intros data; apply Hpost |]. split; [intros data; apply Hpost |].
  split; [intros data; apply Hpost |]. split; [intros data; apply Hpost |].
  split; [| split].
  - intros tag q limit.
    apply (wf_room_same_data 0 s); [apply list_courses_same_data | done].
  - intros course_id. split; [| split; [| split]].
    + apply (wf_room_same_data 0 s); [apply get_course_same_data | done].
    + apply (wf_room_same_data 0 s); [apply list_lessons_same_data | done].
    + rewrite list_enrollments_run.
      apply (wf_room_same_data 0 s); [apply same_data_record_call | done].
    + rewrite list_reviews_run.
      apply (wf_room_same_data 0 s); [apply same_data_record_call | done].
  - by apply (keeps_seed_demo 0).
Qed.
End Invariant.

(* ===================================================================== *)
(** * Further properties: lookups after writes *)
(* ===================================================================== *)

Section Lookups.
Implicit Types (s : store) (d : doc).

Lemma oid_parse_valid course_id :
  oid_is_valid course_id = true -> is_Some (oid_parse course_id).
Proof.
  intros Hvalid. unfold oid_parse. rewrite Hvalid. unfold oid_is_valid in Hvalid.
  apply andb_true_iff in Hvalid as [_ Hhex]. by apply bool_decide_eq_true in Hhex.
Qed.

(** A lookup that succeeds found the first course with that identifier. *)
Lemma get_course_found course_id d s :
  available s = true -> (get_course course_id s).1 = Ok d ->
  ∃ oid rest,
    oid_parse course_id = Some oid ∧
    filter (fun d => Is_true (has_id oid d)) (collection s "course") = d :: rest.
Proof.
  intros Hav Hget. destruct (oid_is_valid course_id) eqn:Hvalid.
  - destruct (oid_parse_valid _ Hvalid) as [oid Hparse].
    rewrite (get_course_valid _ oid) in Hget by done. simpl in Hget.
    destruct (filter _ _) as [| d' rest] eqn:Hfound; [done |].
    injection Hget as ->. by exists oid, rest.
  - rewrite get_course_invalid in Hget by done. done.
Qed.

Lemma get_course_first course_id oid d rest s :
  available s = true -> oid_parse course_id = Some oid ->
  filter (fun d => Is_true (has_id oid d)) (collection s "course") = d :: rest ->
  (get_course course_id s).1 = Ok d.
Proof.
  intros Hav Hparse Hfound. rewrite (get_course_valid _ oid) by done.
  simpl. by rewrite Hfound.
Qed.

(** What a POST route does to the courses of a database that answers: it
    appends to them, or leaves them. *)
Lemma with_body_courses {D A} `{BaseModel A} (validate : D -> list string + A)
    name data s :
  available s = true ->
  let s' := (with_body validate (fun a : A =>
               except_500 (id ← create_document name a;
                           mret ({["id" := VStr id]} : doc))) data s).2 in
  available s' = true ∧ ∃ more, collection s' "course" = collection s "course" ++ more.
Proof.
  intros Hav. unfold with_body. destruct (validate data) as [errs | a]; simpl.
  - split; [done |]. exists []. by rewrite app_nil_r.
  - unfold except_500, try_except, mbind, M_bind.
    rewrite create_document_up by done. simpl. split; [done |].
    destruct (decide (name = "course")) as [-> | Hne].
    + eexists. by rewrite collection_insert_one.
    + exists []. rewrite collection_insert_one_ne, app_nil_r by done. reflexivity.
Qed.

(** X11. A course that [get_course] returns is still what it returns after
    any request to one of the four POST routes, on a database that
    answers: a write never changes or hides a stored course. *)
Theorem posts_keep_courses (course_id : string) (d : doc) (s : store) :
  available s = true -> (get_course course_id s).1 = Ok d ->
  (∀ data, (get_course course_id (post_courses data s).2).1 = Ok d) ∧
  (∀ data, (get_course course_id (post_lessons data s).2).1 = Ok d) ∧
  (∀ data, (get_course course_id (post_enroll data s).2).1 = Ok d) ∧
  (∀ data, (get_course course_id (post_reviews data s).2).1 = Ok d).
Proof.
  intros Hav Hget.
  destruct (get_course_found _ _ _ Hav Hget) as (oid & rest & Hparse & Hfound).
  assert (Hkeep : ∀ s', available s' = true ->
            (∃ more, collection s' "course" = collection s "course" ++ more) ->
            (get_course course_id s').1 = Ok d).
  { intros s' Hav' [more Hmore].
    apply (get_course_first _ oid d (rest ++ filter (fun d => Is_true (has_id oid d)) more));
      [done | done |].
    by rewrite Hmore, filter_app, Hfound. }
  split; [| split; [| split]]; intros data; apply Hkeep;
    first [apply (with_body_courses Course_validate "course" data s Hav)
          | apply (with_body_courses Lesson_validate "lesson" data s Hav)
          | apply (with_body_courses Enrollment_validate "enrollment" data s Hav)
          | apply (with_body_courses Review_validate "review" data s Hav)].
Qed.

Lemma has_id_stored `{BaseModel A} oid oid' (data : A) :
  has_id oid (stored oid' data) = bool_decide (oid' = oid).
Proof. unfold has_id, stored. by rewrite lookup_insert_eq. Qed.

Lemma demo_courses_titles c1 c2 c3 :
  Course_validate <$> demo_courses = [inr c1; inr c2; inr c3] ->
  title c1 = "React for Beginners" ∧ title c2 = "FastAPI Bootcamp" ∧
  title c3 = "Design Systems 101".
Proof. intros Hvalid. injection Hvalid as <- <- <-. done. Qed.

(** X12. After [seed_demo] has seeded a database that had no course, each
    of the three identifiers it returned is answered by [get_course] with
    the demo course it was given to: React for Beginners, FastAPI Bootcamp
    and Design Systems 101, in this order. *)
Theorem seed_then_get_course (s : store) :
  available s = true -> collection s "course" = [] ->
  (next_oid s + 12 < 2 ^ 96)%N ->
  let s' := (seed_demo s).2 in
  let n := next_oid s in
  (seed_demo s).1 = Ok (seeded [oid_str n; oid_str (n + 4); oid_str (n + 8)]) ∧
  (∃ d, (get_course (oid_str n) s').1 = Ok d ∧
        d !! "title" = Some (VStr "React for Beginners")) ∧
  (∃ d, (get_course (oid_str (n + 4)) s').1 = Ok d ∧
        d !! "title" = Some (VStr "FastAPI Bootcamp")) ∧
  (∃ d, (get_course (oid_str (n + 8)) s').1 = Ok d ∧
        d !! "title" = Some (VStr "Design Systems 101")).
Proof.
  intros Hav Hempty Hbound s' n. subst s'.
  destruct (seed_demo_fresh s Hav Hempty)
    as (c1 & c2 & c3 & s' & Hvalid & Hrun & Hav' & Hcourse & _).
  rewrite !next_course_oid_small in Hrun, Hcourse by lia.
  replace (next_oid s + 4 + 4)%N with (n + 8)%N in * by (unfold n; lia).
  fold n in Hrun, Hcourse.
  destruct (demo_courses_titles _ _ _ Hvalid) as (Ht1 & Ht2 & Ht3).
  rewrite Hrun. cbn [fst snd]. split; [done |].
  assert (Hget : ∀ (k : N) (c : Course) before after,
            (k < 2 ^ 96)%N ->
            collection s' "course" = before ++ stored k c :: after ->
            (∀ d, d ∈ before -> has_id k d = false) ->
            (get_course (oid_str k) s').1 = Ok (stored k c)).
  { intros k c before after Hk Hsplit Hbefore.
    apply (get_course_first _ k _ (filter (fun d => Is_true (has_id k d)) after));
      [done | by apply oid_parse_str |].
    rewrite Hsplit, filter_app, filter_none, filter_cons_True; [done | |].
    - rewrite has_id_stored. by apply bool_decide_pack.
    - intros d Hd Hid. apply Hbefore in Hd. by rewrite Hd in Hid. }
  split; [| split].
  - exists (stored n c1). split; [| by rewrite <- Ht1].
    apply (Hget n c1 [] [stored (n + 4) c2; stored (n + 8) c3]);
      [unfold n; lia | done |]. intros d Hd. by apply elem_of_nil in Hd.
  - exists (stored (n + 4) c2). split; [| by rewrite <- Ht2].
    apply (Hget (n + 4)%N c2 [stored n c1] [stored (n + 8) c3]);
      [unfold n; lia | done |].
    intros d Hd. apply list_elem_of_singleton in Hd as ->.
    rewrite has_id_stored. apply bool_decide_eq_false_2. lia.
  - exists (stored (n + 8) c3). split; [| by rewrite <- Ht3].
    apply (Hget (n + 8)%N c3 [stored n c1; stored (n + 4) c2] []);
      [unfold n; lia | done |].
    intros d Hd. apply elem_of_cons in Hd as [-> | Hd];
      [| apply list_elem_of_singleton in Hd as ->];
      rewrite has_id_stored; apply bool_decide_eq_false_2; lia.
Qed.

Lemma of_course_demo_lesson cid cid' oid l_idx :
  of_course cid (stored oid (demo_lesson_model cid' l_idx)) = bool_decide (cid' = cid).
Proof. reflexivity. Qed.

Lemma sorted_demo_lessons oid :
  sorted order_key (demo_lesson_docs oid) = Some (demo_lesson_docs oid).
Proof. reflexivity. Qed.

(** X13. After [seed_demo] has seeded a database that had no course, the
    lessons listed for each of the three new courses are its three demo
    lessons in the order 1, 2, 3, provided no lesson stored before
    referred to one of the new identifiers. *)
Theorem seed_then_list_lessons (s : store) :
  available s = true -> collection s "course" = [] ->
  (next_oid s + 12 < 2 ^ 96)%N ->
  let n := next_oid s in
  (∀ d cid, d ∈ collection s "lesson" ->
     cid ∈ [oid_str n; oid_str (n + 4); oid_str (n + 8)] ->
     of_course cid d = false) ->
  ∀ cid, cid ∈ [oid_str n; oid_str (n + 4); oid_str (n + 8)] ->
    ∃ lessons,
      (list_lessons cid (seed_demo s).2).1 = Ok lessons ∧
      order_of <$> lessons = [1; 2; 3]%Z ∧
      Forall (fun d => of_course cid d = true) lessons.
Proof.
  intros Hav Hempty Hbound n Hfree cid Hcid.
  destruct (seed_demo_fresh s Hav Hempty)
    as (c1 & c2 & c3 & s' & _ & Hrun & Hav' & _ & Hlesson).
  rewrite !next_course_oid_small in Hlesson by lia.
  replace (next_oid s + 4 + 4)%N with (n + 8)%N in * by (unfold n; lia).
  fold n in Hlesson. rewrite Hrun. cbn [fst snd].
  assert (Hdistinct : ∀ a b : N, (a < 12)%N -> (b < 12)%N -> a ≠ b ->
            oid_str (n + a) ≠ oid_str (n + b)).
  { intros a b Ha Hb Hab Heq. apply oid_str_inj in Heq; unfold n in *; lia. }
  pose proof (Hdistinct 0 4)%N as H04. pose proof (Hdistinct 0 8)%N as H08.
  pose proof (Hdistinct 4 8)%N as H48. rewrite N.add_0_r in H04, H08.
  assert (Hfound : ∃ k, cid = oid_str k ∧
            take 200 (filter (fun d => Is_true (of_course cid d))
                        (collection s' "lesson")) = demo_lesson_docs k).
  { assert (Hold : filter (fun d => Is_true (of_course cid d)) (collection s "lesson") = []).
    { apply filter_none. intros d Hd Hc. rewrite (Hfree d cid Hd Hcid) in Hc. done. }
    rewrite Hlesson, !filter_app, Hold, !filter_demo_lessons. simpl app.
    repeat (apply elem_of_cons in Hcid as [-> | Hcid]);
      [exists n | exists (n + 4)%N | exists (n + 8)%N | by apply elem_of_nil in Hcid];
      (split; [done |]); repeat case_decide; try reflexivity; exfalso;
      first [by eapply H04; [lia..|] | by eapply H08; [lia..|]
            | by eapply H48; [lia..|] | done]. }
  destruct Hfound as (k & -> & Hfound).
  exists (demo_lesson_docs k). split; [| split].
  - rewrite list_lessons_run by done. by rewrite Hfound, sorted_demo_lessons.
  - apply order_of_demo_lessons.
  - unfold demo_lesson_docs.
    repeat apply Forall_cons_2; try apply Forall_nil_2;
      rewrite of_course_demo_lesson; by apply bool_decide_eq_true_2.
Qed.
End Lookups.

(* ===================================================================== *)
(** * Further properties: searching and sorting *)
(* ===================================================================== *)

Section Searching.
Implicit Types (s : store) (d : doc).

Lemma get_documents_sublist name f limit s :
  returned (except_500 (get_documents name f limit) s).1 `sublist_of` collection s name ∧
  length (returned (except_500 (get_documents name f limit) s).1) <= Z.to_nat limit.
Proof.
  unfold except_500, try_except. destruct (available s) eqn:Hav.
  - destruct (filter_valid f) eqn:Hf.
    + rewrite get_documents_up by done. simpl. split.
      * etrans; [apply sublist_take | apply sublist_filter].
      * rewrite length_take. lia.
    + unfold get_documents, mbind, M_bind, modify, get_state. simpl.
      rewrite Hav, Hf. simpl. split; [apply sublist_nil_l | lia].
  - rewrite get_documents_down by done. simpl. split; [apply sublist_nil_l | lia].
Qed.

(** X14. Whatever the tag and the search term, the courses that
    [list_courses] returns are stored courses, each at most once and in the
    order of the store; for a positive [limit] there are no more than
    [limit] of them. *)
Theorem list_courses_sublist (tag q : option string) (limit : Z) (s : store) :
  returned (list_courses tag q limit s).1 `sublist_of` collection s "course" ∧
  ((0 < limit)%Z ->
   (Z.of_nat (length (returned (list_courses tag q limit s).1)) <= limit)%Z).
Proof.
  unfold list_courses. cbv zeta.
  match goal with
  | |- context [get_documents "course" ?f limit] =>
      destruct (get_documents_sublist "course" f limit s) as [Hsub Hlen]
  end.
  split; [exact Hsub | intros Hpos; lia].
Qed.

Lemma get_documents_ext name f f' limit s :
  filter_valid f = filter_valid f' -> (∀ d, matches f d = matches f' d) ->
  get_documents name f limit s = get_documents name f' limit s.
Proof.
  intros Hvalid Hmatches. unfold get_documents, mbind, M_bind, modify, get_state.
  simpl. rewrite Hvalid.
  rewrite (list_filter_iff _ (fun d => Is_true (matches f' d)));
    [done | intros d; by rewrite Hmatches].
Qed.

Lemma prefix_ci_lower q q' x :
  lower_str q = lower_str q' -> prefix_ci q x = prefix_ci q' x.
Proof.
  revert q' x. induction q as [| a q IH]; intros [| b q'] x Hlower;
    simpl in *; try discriminate; [done |].
  injection Hlower as Hab Hlower. destruct x as [| c x]; [done |].
  by rewrite Hab, (IH q' x).
Qed.

Lemma contains_ci_lower q q' x :
  lower_str q = lower_str q' -> contains_ci q x = contains_ci q' x.
Proof.
  intros Hlower. induction x as [| c x IH]; simpl.
  - by rewrite (prefix_ci_lower q q').
  - by rewrite (prefix_ci_lower q q'), IH.
Qed.

Lemma course_mentions_lower q q' d :
  lower_str q = lower_str q' -> course_mentions q d = course_mentions q' d.
Proof.
  intros Hlower.
  assert (Hfield : ∀ v, field_mentions q v = field_mentions q' v).
  { intros [[] |]; simpl; try done.
    - by apply contains_ci_lower.
    - induction l as [| x l IH]; simpl; [done |].
      by rewrite (contains_ci_lower q q'), IH. }
  unfold course_mentions. by rewrite !Hfield.
Qed.

Lemma lower_str_empty q : lower_str q = lower_str "" -> q = "".
Proof. by destruct q. Qed.

(** X15. The search of [list_courses] does not depend on the case of the
    letters of the search term: two terms without metacharacters that are
    equal up to case give the same answer, with or without a tag. *)
Theorem search_ignores_case_of_term (tag : option string) (q q' : string)
    (limit : Z) (s : store) :
  literal q = true -> literal q' = true -> lower_str q = lower_str q' ->
  list_courses tag (Some q) limit s = list_courses tag (Some q') limit s.
Proof.
  intros Hlit Hlit' Hlower.
  destruct (decide (q = "")) as [-> | Hq].
  { symmetry in Hlower. by apply lower_str_empty in Hlower as ->. }
  assert (Hq' : q' ≠ "").
  { intros ->. by apply lower_str_empty in Hlower. }
  unfold list_courses. cbv beta iota zeta.
  rewrite (truthy_str_nonempty q), (truthy_str_nonempty q') by done.
  unfold except_500, try_except.
  assert (Hbase : ∀ base : filter_dict,
            base = ∅ ∨ (∃ t, base = <["tags" := Field (CIn [VStr t])]> ∅) ->
            get_documents "course"
              (<["$or" := Or [("title", CRegex q "i"); ("subtitle", CRegex q "i");
                              ("description", CRegex q "i"); ("tags", CRegex q "i")]]> base)
              limit s =
            get_documents "course"
              (<["$or" := Or [("title", CRegex q' "i"); ("subtitle", CRegex q' "i");
                              ("description", CRegex q' "i"); ("tags", CRegex q' "i")]]> base)
              limit s).
  { intros base [-> | [t ->]]; apply get_documents_ext.
    - unfold filter_valid. rewrite !insert_empty, !map_to_list_singleton.
      cbn [forallb snd query_valid]. by rewrite !cond_valid_literal.
    - intros d. rewrite !insert_empty, !matches_singleton, !or_holds_literal by done.
      by apply course_mentions_lower.
    - unfold filter_valid. rewrite !map_to_list_two.
      cbn [forallb snd query_valid]. by rewrite !cond_valid_literal.
    - intros d. unfold matches. rewrite !map_to_list_two. cbn [forallb fst snd].
      rewrite !or_holds_literal by done. by rewrite (course_mentions_lower q q'). }
  destruct tag as [t |]; [destruct (truthy_str t) |]; rewrite Hbase; eauto.
Qed.






End Searching.

Section NullOrder.
Context {A : Type} (key : A -> value).

(** A key that compares with nothing makes [sorted] raise as soon as there
    is something to compare it with. *)
Lemma sorted_incomparable z l :
  z ∈ l -> 2 <= length l ->
  (∀ v, py_lt (key z) v = None) -> (∀ v, py_lt v (key z) = None) ->
  sorted key l = None.
Proof.
  intros Hz Hlen Hleft Hright. revert Hz Hlen.
  induction l as [| x l IH]; intros Hz Hlen; [by apply elem_of_nil in Hz |].
  simpl. destruct (sorted key l) as [l1 |] eqn:Hs; [| done]. simpl.
  pose proof (sorted_perm key _ _ Hs) as Hp.
  destruct l1 as [| y l1].
  { apply Permutation_nil_l in Hp. subst l. simpl in Hlen. lia. }
  simpl. apply elem_of_cons in Hz as [<- | Hz].
  - by rewrite Hright.
  - destruct l as [| x1 [| x2 l]].
    + by apply elem_of_nil in Hz.
    + apply list_elem_of_singleton in Hz as <-. simpl in Hs.
      injection Hs as <- <-. by rewrite Hleft.
    + assert (Some (y :: l1) = None) by (apply IH; [done | simpl; lia]). done.
Qed.
End NullOrder.

Section NullOrderLessons.
Implicit Types (s : store) (d : doc).

(** X17. [list_lessons] guards against a lesson without [order] but not
    against one whose [order] is null: when the store hands back two or
    more lessons for the course and one of them has a null [order], the
    comparison fails and the answer is 500. *)
Theorem list_lessons_null_order (course_id : string) (d : doc) (s : store) :
  available s = true ->
  d ∈ take 200 (filter (fun d => Is_true (of_course course_id d))
                  (collection s "lesson")) ->
  d !! "order" = Some VNull ->
  2 <= length (take 200 (filter (fun d => Is_true (of_course course_id d))
                           (collection s "lesson"))) ->
  status (list_lessons course_id s).1 = 500.
Proof.
  intros Hav Hd Hnull Hlen. rewrite list_lessons_run by done.
  assert (Hkey : order_key d = VNull) by (unfold order_key; by rewrite Hnull).
  rewrite (sorted_incomparable order_key d); [done | done | done | |];
    rewrite Hkey; by intros [].
Qed.
End NullOrderLessons.

(* ===================================================================== *)
(** * Further properties: GET /test *)
(* ===================================================================== *)

Section DiagnosticsFurther.

Lemma str_take_length n x : String.length (str_take n x) <= n.
Proof.
  unfold str_take. revert x. induction n as [| n IH]; intros [| c x]; simpl; try lia.
  specialize (IH x). lia.
Qed.

Lemma str_take_prefix n x : String.prefix (str_take n x) x = true.
Proof.
  unfold str_take. revert x. induction n as [| n IH]; intros [| c x]; simpl; try done.
  destruct (Ascii.ascii_dec c c); [apply IH | done].
Qed.

Lemma str_take_short n x : String.length x <= n -> str_take n x = x.
Proof.
  unfold str_take. revert x. induction n as [| n IH]; intros [| c x]; simpl; try done.
  - lia.
  - intros Hlen. rewrite IH; [done | lia].
Qed.

(** X18. [/test] keeps what it found out before a failure.  When the
    handle's name can be read but listing the collections raises, the
    answer says Connected, gives the name, leaves [collections] empty and
    reports the error; when reading the name raises, the answer stays at
    Not Connected with a null name.  In both cases the message reported
    after the fixed prefix is the exception's text cut to its first 80
    characters. *)
Theorem test_database_failures (h : Handle) (DATABASE_URL : option string)
    (msg : string) :
  (name h = Fails msg ->
     ∃ r, test_database (Some h) DATABASE_URL = Ok r ∧
       r !! "database" = Some (VStr ("❌ Error: " +:+ str_take 80 msg)) ∧
       r !! "connection_status" = Some (VStr "Not Connected") ∧
       r !! "database_name" = Some VNull ∧
       r !! "collections" = Some (VStrs [])) ∧
  (list_collection_names h = inl msg -> (∀ msg', name h ≠ Fails msg') ->
     ∃ r, test_database (Some h) DATABASE_URL = Ok r ∧
       r !! "database" =
         Some (VStr ("⚠️ Connected but Error: " +:+ str_take 80 msg)) ∧
       r !! "connection_status" = Some (VStr "Connected") ∧
       r !! "database_name" =
         Some (VStr (match name h with Has n => n | _ => "✅ Connected" end)) ∧
       r !! "collections" = Some (VStrs [])) ∧
  String.length (str_take 80 msg) <= 80 ∧
  String.prefix (str_take 80 msg) msg = true ∧
  (String.length msg <= 80 -> str_take 80 msg = msg).
Proof.
  destruct h as [nm cols]. simpl. split; [| split].
  - intros ->. eexists. split; [reflexivity |]. by repeat split.
  - intros -> Hname. destruct nm as [| n | msg'].
    + eexists. split; [reflexivity |]. by repeat split.
    + eexists. split; [reflexivity |]. by repeat split.
    + by destruct (Hname msg').
  - split; [apply str_take_length | split; [apply str_take_prefix | apply str_take_short]].
Qed.

(** X19. With a handle that answers, [/test] reports Connected & Working,
    the first ten collection names in the order the handle gave them (all
    of them when there are ten or fewer), and [database_url] as Set exactly
    when [DATABASE_URL] is in the environment and is not empty. *)
Theorem test_database_working (h : Handle) (DATABASE_URL : option string)
    (names : list string) :
  list_collection_names h = inr names -> (∀ msg, name h ≠ Fails msg) ->
  ∃ r, test_database (Some h) DATABASE_URL = Ok r ∧
    r !! "database" = Some (VStr "✅ Connected & Working") ∧
    r !! "connection_status" = Some (VStr "Connected") ∧
    r !! "collections" = Some (VStrs (take 10 names)) ∧
    (length names <= 10 -> r !! "collections" = Some (VStrs names)) ∧
    (r !! "database_url" = Some (VStr "✅ Set") ↔
       ∃ url, DATABASE_URL = Some url ∧ url ≠ "") ∧
    (r !! "database_url" = Some (VStr "❌ Not Set") ↔
       DATABASE_URL = None ∨ DATABASE_URL = Some "").
Proof.
  destruct h as [nm cols]. simpl. intros -> Hname.
  assert (Hurl : ∀ r : doc,
            r !! "database_url" =
              Some (VStr (if truthy_opt_str DATABASE_URL then "✅ Set" else "❌ Not Set")) ->
            (r !! "database_url" = Some (VStr "✅ Set") ↔
               ∃ url, DATABASE_URL = Some url ∧ url ≠ "") ∧
            (r !! "database_url" = Some (VStr "❌ Not Set") ↔
               DATABASE_URL = None ∨ DATABASE_URL = Some "")).
  { intros r ->. destruct DATABASE_URL as [url |]; simpl.
    - unfold truthy_str. destruct (decide (url = "")) as [-> | Hne].
      + simpl. split; split; try done; [by intros (? & [= <-] & ?) | by right].
      + rewrite bool_decide_eq_false_2 by done. simpl.
        split; split; try done; [by exists url | by intros [| [= ->]]].
    - split; split; try done; [by intros (? & ? & ?) | by left]. }
  destruct nm as [| n | msg].
  - eexists. split; [reflexivity |]. do 3 (split; [reflexivity |]).
    split; [intros Hlen; by rewrite take_ge by lia | by apply Hurl].
  - eexists. split; [reflexivity |]. do 3 (split; [reflexivity |]).
    split; [intros Hlen; by rewrite take_ge by lia | by apply Hurl].
  - by destruct (Hname msg).
Qed.
End DiagnosticsFurther.

(* ===================================================================== *)
(** * The further properties at sample data *)
(* ===================================================================== *)

Section FurtherExamples.







(** X7 at a fourth lesson of the first demo course. *)
Lemma lesson_then_list_witness :
  Lesson_validate plain_lesson = inr plain_lesson_model ∧
  available seeded_store = true ∧
  forallb order_typed (collection seeded_store "lesson") = true ∧
  length (filter (fun d => Is_true (of_course (l_course_id plain_lesson_model) d))
            (collection seeded_store "lesson")) < 200 ∧
  ∃ lessons,
    (list_lessons (l_course_id plain_lesson_model)
       (post_lessons plain_lesson seeded_store).2).1 = Ok lessons ∧
    stored (next_oid seeded_store) plain_lesson_model ∈ lessons ∧
    length lessons =
      S (length (filter (fun d => Is_true (of_course (l_course_id plain_lesson_model) d))
                   (collection seeded_store "lesson"))) ∧
    StronglySorted order_le lessons.
Proof.
  assert (Hv : Lesson_validate plain_lesson = inr plain_lesson_model) by reflexivity.
  assert (Hav : available seeded_store = true) by reflexivity.
  assert (Hty : forallb order_typed (collection seeded_store "lesson") = true)
    by reflexivity.
  assert (Hlen : length (filter (fun d => Is_true (of_course
                                   (l_course_id plain_lesson_model) d))
                           (collection seeded_store "lesson")) < 200).
  { assert (Heq : length (filter (fun d => Is_true (of_course
                                    (l_course_id plain_lesson_model) d))
                            (collection seeded_store "lesson")) = 3)
      by (vm_compute; reflexivity).
    rewrite Heq. lia. }
  split; [exact Hv |]. split; [exact Hav |]. split; [exact Hty |].
  split; [exact Hlen |].
  exact (lesson_then_list plain_lesson plain_lesson_model seeded_store
           Hv Hav Hty Hlen).
Defined.


(** X10 at an empty database. *)
Lemma handlers_keep_store_wf_witness :
  store_wf empty_store ∧
  (next_oid empty_store + 12 < 2 ^ 96)%N ∧
  (∀ data, store_wf (post_courses data empty_store).2) ∧
  (∀ data, store_wf (post_lessons data empty_store).2) ∧
  (∀ data, store_wf (post_enroll data empty_store).2) ∧
  (∀ data, store_wf (post_reviews data empty_store).2) ∧
  (∀ tag q limit, store_wf (list_courses tag q limit empty_store).2) ∧
  (∀ course_id,
     store_wf (get_course course_id empty_store).2 ∧
     store_wf (list_lessons course_id empty_store).2 ∧
     store_wf (list_enrollments course_id empty_store).2 ∧
     store_wf (list_reviews course_id empty_store).2) ∧
  store_wf (seed_demo empty_store).2.
Proof.
  assert (Hroom : (next_oid empty_store + 12 < 2 ^ 96)%N) by reflexivity.
  split; [exact store_wf_empty |]. split; [exact Hroom |].
  exact (handlers_keep_store_wf empty_store store_wf_empty Hroom).
Defined.

(** X11 at the store that holds one course. *)
Lemma posts_keep_courses_witness :
  available plain_store = true ∧
  (get_course (oid_str 0) plain_store).1 = Ok (stored 0 plain_model) ∧
  (∀ data, (get_course (oid_str 0) (post_courses data plain_store).2).1 =
             Ok (stored 0 plain_model)) ∧
  (∀ data, (get_course (oid_str 0) (post_lessons data plain_store).2).1 =
             Ok (stored 0 plain_model)) ∧
  (∀ data, (get_course (oid_str 0) (post_enroll data plain_store).2).1 =
             Ok (stored 0 plain_model)) ∧
  (∀ data, (get_course (oid_str 0) (post_reviews data plain_store).2).1 =
             Ok (stored 0 plain_model)).
Proof.
  assert (Hav : available plain_store = true) by reflexivity.
  assert (Hget : (get_course (oid_str 0) plain_store).1 = Ok (stored 0 plain_model))
    by reflexivity.
  split; [exact Hav |]. split; [exact Hget |].
  exact (posts_keep_courses (oid_str 0) (stored 0 plain_model) plain_store Hav Hget).
Defined.

(** X12 at an empty database. *)
Lemma seed_then_get_course_witness :
  available empty_store = true ∧
  collection empty_store "course" = [] ∧
  (next_oid empty_store + 12 < 2 ^ 96)%N ∧
  let s' := (seed_demo empty_store).2 in
  let n := next_oid empty_store in
  (seed_demo empty_store).1 =
    Ok (seeded [oid_str n; oid_str (n + 4); oid_str (n + 8)]) ∧
  (∃ d, (get_course (oid_str n) s').1 = Ok d ∧
        d !! "title" = Some (VStr "React for Beginners")) ∧
  (∃ d, (get_course (oid_str (n + 4)) s').1 = Ok d ∧
        d !! "title" = Some (VStr "FastAPI Bootcamp")) ∧
  (∃ d, (get_course (oid_str (n + 8)) s').1 = Ok d ∧
        d !! "title" = Some (VStr "Design Systems 101")).
Proof.
  assert (Hav : available empty_store = true) by reflexivity.
  assert (Hnone : collection empty_store "course" = []) by reflexivity.
  assert (Hroom : (next_oid empty_store + 12 < 2 ^ 96)%N) by reflexivity.
  split; [exact Hav |]. split; [exact Hnone |]. split; [exact Hroom |].
  exact (seed_then_get_course empty_store Hav Hnone Hroom).
Defined.

(** X13 at an empty database and the second demo course. *)
Lemma seed_then_list_lessons_witness :
  available empty_store = true ∧
  collection empty_store "course" = [] ∧
  (next_oid empty_store + 12 < 2 ^ 96)%N ∧
  (∀ d cid, d ∈ collection empty_store "lesson" ->
     cid ∈ [oid_str (next_oid empty_store); oid_str (next_oid empty_store + 4);
            oid_str (next_oid empty_store + 8)] ->
     of_course cid d = false) ∧
  oid_str (next_oid empty_store + 4) ∈
    [oid_str (next_oid empty_store); oid_str (next_oid empty_store + 4);
     oid_str (next_oid empty_store + 8)] ∧
  ∃ lessons,
    (list_lessons (oid_str (next_oid empty_store + 4)) (seed_demo empty_store).2).1 =
      Ok lessons ∧
    order_of <$> lessons = [1; 2; 3]%Z ∧
    Forall (fun d => of_course (oid_str (next_oid empty_store + 4)) d = true) lessons.
Proof.
  assert (Hav : available empty_store = true) by reflexivity.
  assert (Hnone : collection empty_store "course" = []) by reflexivity.
  assert (Hroom : (next_oid empty_store + 12 < 2 ^ 96)%N) by reflexivity.
  assert (Hold : ∀ d cid, d ∈ collection empty_store "lesson" ->
            cid ∈ [oid_str (next_oid empty_store); oid_str (next_oid empty_store + 4);
                   oid_str (next_oid empty_store + 8)] ->
            of_course cid d = false).
  { intros d cid Hd _. change (d ∈ @nil doc) in Hd. by apply elem_of_nil in Hd. }
  assert (Hcid : oid_str (next_oid empty_store + 4) ∈
            [oid_str (next_oid empty_store); oid_str (next_oid empty_store + 4);
             oid_str (next_oid empty_store + 8)])
    by apply list_elem_of_further, list_elem_of_here.
  split; [exact Hav |]. split; [exact Hnone |]. split; [exact Hroom |].
  split; [exact Hold |]. split; [exact Hcid |].
  exact (seed_then_list_lessons empty_store Hav Hnone Hroom Hold _ Hcid).
Defined.

(** X14 at the seeded database and a limit of 2. *)
Lemma list_courses_sublist_witness :
  (0 < 2)%Z ∧
  returned (list_courses None None 2 seeded_store).1
    `sublist_of` collection seeded_store "course" ∧
  (Z.of_nat (length (returned (list_courses None None 2 seeded_store).1)) <= 2)%Z.
Proof.
  assert (Hpos : (0 < 2)%Z) by reflexivity.
  split; [exact Hpos |].
  split; [exact (proj1 (list_courses_sublist None None 2 seeded_store)) |].
  exact (proj2 (list_courses_sublist None None 2 seeded_store) Hpos).
Defined.

(** X15 at a search term in lower and in upper case. *)
Lemma search_ignores_case_of_term_witness :
  literal "python" = true ∧ literal "PYTHON" = true ∧
  lower_str "python" = lower_str "PYTHON" ∧
  list_courses None (Some "python") 50 plain_store =
    list_courses None (Some "PYTHON") 50 plain_store.
Proof.
  assert (Hlit : literal "python" = true) by reflexivity.
  assert (Hlit' : literal "PYTHON" = true) by reflexivity.
  assert (Hlower : lower_str "python" = lower_str "PYTHON") by reflexivity.
  split; [exact Hlit |]. split; [exact Hlit' |]. split; [exact Hlower |].
  exact (search_ignores_case_of_term None "python" "PYTHON" 50 plain_store
           Hlit Hlit' Hlower).
Defined.


(** X17 at two lessons of which the second has a null [order]. *)
Lemma list_lessons_null_order_witness :
  available null_order_store = true ∧
  <["order" := VNull]> (stored 1 plain_lesson_model) ∈
    take 200 (filter (fun d => Is_true (of_course "000000000000000000000000" d))
                (collection null_order_store "lesson")) ∧
  (<["order" := VNull]> (stored 1 plain_lesson_model) : doc) !! "order" = Some VNull ∧
  2 <= length (take 200 (filter (fun d => Is_true (of_course "000000000000000000000000" d))
                           (collection null_order_store "lesson"))) ∧
  status (list_lessons "000000000000000000000000" null_order_store).1 = 500.
Proof.
  assert (Hav : available null_order_store = true) by reflexivity.
  assert (Hfound : take 200 (filter (fun d => Is_true
                                       (of_course "000000000000000000000000" d))
                               (collection null_order_store "lesson")) =
                   [stored 0 plain_lesson_model;
                    <["order" := VNull]> (stored 1 plain_lesson_model)])
    by reflexivity.
  assert (Hd : <["order" := VNull]> (stored 1 plain_lesson_model) ∈
            take 200 (filter (fun d => Is_true (of_course "000000000000000000000000" d))
                        (collection null_order_store "lesson")))
    by (rewrite Hfound; apply list_elem_of_further, list_elem_of_here).
  assert (Hnull : (<["order" := VNull]> (stored 1 plain_lesson_model) : doc) !! "order" =
                  Some VNull) by reflexivity.
  assert (Hlen : 2 <= length (take 200 (filter (fun d => Is_true
                                (of_course "000000000000000000000000" d))
                                (collection null_order_store "lesson"))))
    by (rewrite Hfound; simpl; lia).
  split; [exact Hav |]. split; [exact Hd |]. split; [exact Hnull |].
  split; [exact Hlen |].
  exact (list_lessons_null_order "000000000000000000000000" _ null_order_store
           Hav Hd Hnull Hlen).
Defined.

(** X18 at a handle whose name cannot be read and at one that does not list
    its collections. *)
Lemma test_database_failures_witness :
  (name failing_handle = Fails "connection refused" ∧
   ∃ r, test_database (Some failing_handle) None = Ok r ∧
     r !! "database" =
       Some (VStr ("❌ Error: " +:+ str_take 80 "connection refused")) ∧
     r !! "connection_status" = Some (VStr "Not Connected") ∧
     r !! "database_name" = Some VNull ∧
     r !! "collections" = Some (VStrs [])) ∧
  (list_collection_names silent_handle = inl "not authorized" ∧
   (∀ msg', name silent_handle ≠ Fails msg') ∧
   ∃ r, test_database (Some silent_handle) None = Ok r ∧
     r !! "database" =
       Some (VStr ("⚠️ Connected but Error: " +:+ str_take 80 "not authorized")) ∧
     r !! "connection_status" = Some (VStr "Connected") ∧
     r !! "database_name" =
       Some (VStr (match name silent_handle with Has n => n | _ => "✅ Connected" end)) ∧
     r !! "collections" = Some (VStrs [])) ∧
  (String.length "not authorized" <= 80 ∧
   str_take 80 "not authorized" = "not authorized").
Proof.
  assert (Hname : name failing_handle = Fails "connection refused") by reflexivity.
  assert (Hlist : list_collection_names silent_handle = inl "not authorized")
    by reflexivity.
  assert (Hreads : ∀ msg', name silent_handle ≠ Fails msg') by (intros msg' H; discriminate H).
  assert (Hshort : String.length "not authorized" <= 80) by (simpl; lia).
  split; [| split].
  - split; [exact Hname |].
    exact (proj1 (test_database_failures failing_handle None "connection refused")
             Hname).
  - split; [exact Hlist |]. split; [exact Hreads |].
    exact (proj1 (proj2 (test_database_failures silent_handle None "not authorized"))
             Hlist Hreads).
  - split; [exact Hshort |].
    exact (proj2 (proj2 (proj2 (proj2
             (test_database_failures silent_handle None "not authorized")))) Hshort).
Defined.

(** X19 at a handle with two collections and a database address. *)
Lemma test_database_working_witness :
  list_collection_names working_handle = inr ["course"; "lesson"] ∧
  (∀ msg, name working_handle ≠ Fails msg) ∧
  ∃ r, test_database (Some working_handle) (Some "mongodb://localhost") = Ok r ∧
    r !! "database" = Some (VStr "✅ Connected & Working") ∧
    r !! "connection_status" = Some (VStr "Connected") ∧
    r !! "collections" = Some (VStrs (take 10 ["course"; "lesson"])) ∧
    (length ["course"; "lesson"] <= 10 ->
     r !! "collections" = Some (VStrs ["course"; "lesson"])) ∧
    (r !! "database_url" = Some (VStr "✅ Set") ↔
       ∃ url, Some "mongodb://localhost" = Some url ∧ url ≠ "") ∧
    (r !! "database_url" = Some (VStr "❌ Not Set") ↔
       Some "mongodb://localhost" = None ∨ Some "mongodb://localhost" = Some "").
Proof.
  assert (Hlist : list_collection_names working_handle = inr ["course"; "lesson"])
    by reflexivity.
  assert (Hreads : ∀ msg, name working_handle ≠ Fails msg)
    by (intros msg H; discriminate H).
  split; [exact Hlist |]. split; [exact Hreads |].
  exact (test_database_working working_handle (Some "mongodb://localhost")
           ["course"; "lesson"] Hlist Hreads).
Defined.
End FurtherExamples.
